(** * Commit watcher: detection, enrichment, formatting, cursor store

    A shallow embedding of the commit notification pipeline of the Discord
    bot: [src/formatters/commit-formatter.js], [src/utils/commit-tracker.js],
    [src/services/github-service.js] and the polling loop of [bot.js]
    (the single-repository version and the multi-repository version).

    JavaScript strings are sequences of UTF-16 code units, and [length],
    [substring], [split] and [replace] count and cut in code units, so a
    string is modelled as a list of code units.  Promises that reject and
    exceptions are modelled by an explicit result type; the file system, the
    channel cache and the clock are passed explicitly. *)

From Stdlib Require Import List NArith Arith Bool Lia String Ascii.
From Stdlib Require Decimal DecimalString.
Import ListNotations.

Set Implicit Arguments.

(** [length], [++] and [concat] are those of lists throughout. *)
Abbreviation length := Datatypes.length (only parsing).
Local Close Scope string_scope.
Local Open Scope list_scope.

(* ------------------------------------------------------------------ *)
(** ** JavaScript strings and arrays *)

Module JS.

Definition code_unit := N.
Definition jsstr := list code_unit.

(** An ASCII literal of the source, one code unit per character. *)
Definition lit (s : string) : jsstr :=
  map N_of_ascii (list_ascii_of_string s).

(** [a === b] on strings. *)
Fixpoint eqb (a b : jsstr) : bool :=
  match a, b with
  | [], [] => true
  | x :: a', y :: b' => N.eqb x y && eqb a' b'
  | _, _ => false
  end.

(** Truthiness of a string: only the empty string is falsy. *)
Definition truthy (s : jsstr) : bool :=
  match s with [] => false | _ :: _ => true end.

(** Truthiness of a value that is [null]/[undefined] or a string. *)
Definition truthy_opt (v : option jsstr) : bool :=
  match v with None => false | Some s => truthy s end.

(** [v || d] for such a value. *)
Definition or_else (v : option jsstr) (d : jsstr) : jsstr :=
  match v with
  | Some s => if truthy s then s else d
  | None => d
  end.

Fixpoint startsWith (pat s : jsstr) : bool :=
  match pat, s with
  | [], _ => true
  | p :: pat', c :: s' => N.eqb p c && startsWith pat' s'
  | _ :: _, [] => false
  end.

(** [s.substring(0, n)]. *)
Definition substring0 (n : nat) (s : jsstr) : jsstr := firstn n s.

(** [s.split(sep)[0]] for a non-empty separator: the text before the first
    occurrence of [sep], the whole string when there is none. *)
Fixpoint split_head (sep s : jsstr) : jsstr :=
  match s with
  | [] => []
  | c :: s' => if startsWith sep s then [] else c :: split_head sep s'
  end.

(** [s.replace(pat, rep)] for a non-empty string pattern: the first
    occurrence only. *)
Fixpoint replace_first (pat rep s : jsstr) : jsstr :=
  match s with
  | [] => []
  | c :: s' =>
      if startsWith pat s then rep ++ skipn (length pat) s
      else c :: replace_first pat rep s'
  end.

(** [parts.join(sep)]. *)
Fixpoint join (sep : jsstr) (parts : list jsstr) : jsstr :=
  match parts with
  | [] => []
  | [p] => p
  | p :: rest => p ++ sep ++ join sep rest
  end.

(** A non-negative integer inside a template literal. *)
Definition of_nat (n : nat) : jsstr :=
  lit (DecimalString.NilEmpty.string_of_uint (Nat.to_uint n)).

(** [arr.findIndex(p)]; [None] stands for [-1]. *)
Fixpoint findIndex {A : Type} (p : A -> bool) (l : list A) : option nat :=
  match l with
  | [] => None
  | x :: l' =>
      if p x then Some 0
      else match findIndex p l' with
           | Some i => Some (S i)
           | None => None
           end
  end.

(** [arr?.length || 0] for an array that may be missing. *)
Definition length_or_0 {A : Type} (v : option (list A)) : nat :=
  match v with Some l => length l | None => 0 end.

(** [arr || []]. *)
Definition or_empty {A : Type} (v : option (list A)) : list A :=
  match v with Some l => l | None => [] end.

Definition newline : code_unit := 10%N.
Definition bullet : code_unit := 8226%N.  (* U+2022 *)

(** Results of calls that may throw or reject. *)
Inductive Exc (A : Type) : Type :=
| Ok (a : A)
| Throw (msg : jsstr).
Arguments Ok {A} a.
Arguments Throw {A} msg.

Definition bind {A B : Type} (m : Exc A) (k : A -> Exc B) : Exc B :=
  match m with
  | Ok a => k a
  | Throw e => Throw e
  end.

(** [try { body } catch (error) { handler }]. *)
Definition try_catch {A : Type} (body : Exc A) (handler : jsstr -> Exc A) : Exc A :=
  match body with
  | Ok a => Ok a
  | Throw e => handler e
  end.

End JS.
Import JS.

Notation "x <- m ;; k" := (bind m (fun x => k))
  (at level 61, m at next level, right associativity).

(* ------------------------------------------------------------------ *)
(** ** Data model *)

Record Author := mkAuthor {
  author_name : jsstr;
  author_email : jsstr;
  author_avatar : option jsstr
}.

Record Stats := mkStats {
  additions : N;
  deletions : N;
  total : N
}.

(** A commit object as the formatter and the poller see it.  The three path
    arrays may be missing in a webhook payload. *)
Record Commit := mkCommit {
  id : jsstr;
  sha : jsstr;
  message : jsstr;
  timestamp : jsstr;
  url : jsstr;
  author : Author;
  added : option (list jsstr);
  modified : option (list jsstr);
  removed : option (list jsstr);
  stats : option Stats
}.

Record Repository := mkRepository { repo_name : jsstr }.

Record Payload := mkPayload {
  commits : option (list Commit);
  repository : Repository;
  ref : option jsstr
}.

Record Field := mkField {
  field_name : jsstr;
  field_value : jsstr;
  inline : bool
}.

Record EmbedAuthor := mkEmbedAuthor {
  embed_author_name : jsstr;
  icon_url : option jsstr
}.

Record Embed := mkEmbed {
  color : N;
  title : jsstr;
  embed_url : jsstr;
  embed_author : EmbedAuthor;
  description : jsstr;
  fields : list Field;
  footer_text : option jsstr;
  embed_timestamp : jsstr
}.

(* ------------------------------------------------------------------ *)
(** ** commit-formatter.js *)

Module Formatter.

Definition formatCommitMessage (message : jsstr) : jsstr :=
  let title := split_head [newline] message in
  if 100 <? length title then substring0 97 title ++ lit "..."
  else title.

Record TotalStats := mkTotalStats {
  total_added : nat;
  total_removed : nat;
  total_modified : nat;
  total_all : nat
}.

(** The [forEach] loop with its three accumulators. *)
Definition calculateTotalChanges (commits : list Commit) : TotalStats :=
  let '(totalAdded, totalRemoved, totalModified) :=
    fold_left
      (fun (acc : nat * nat * nat) (commit : Commit) =>
         let '(a, r, m) := acc in
         (a + length_or_0 (added commit),
          r + length_or_0 (removed commit),
          m + length_or_0 (modified commit)))
      commits (0, 0, 0) in
  mkTotalStats totalAdded totalRemoved totalModified
               (totalAdded + totalRemoved + totalModified).

Definition formatChangeStats (stats : TotalStats) : jsstr :=
  let parts := [] in
  let parts := if 0 <? total_added stats
               then parts ++ [lit "+" ++ of_nat (total_added stats)] else parts in
  let parts := if 0 <? total_removed stats
               then parts ++ [lit "-" ++ of_nat (total_removed stats)] else parts in
  let parts := if 0 <? total_modified stats
               then parts ++ [lit "~" ++ of_nat (total_modified stats)] else parts in
  if 0 <? length parts then join (lit " ") parts else lit "No changes".

Definition fence_open : jsstr := lit "```diff" ++ [newline].
Definition fence_close : jsstr := lit "```".

(** The array [allFiles] of [formatFileChanges]. *)
Definition all_files (commit : Commit) : list jsstr :=
  map (fun f => lit "+ " ++ f) (or_empty (added commit)) ++
  map (fun f => lit "~ " ++ f) (or_empty (modified commit)) ++
  map (fun f => lit "- " ++ f) (or_empty (removed commit)).

Definition formatFileChanges (commit : Commit) : jsstr :=
  let allFiles := all_files commit in
  if length allFiles =? 0 then lit "No files changed"
  else if 10 <? length allFiles then
    let showing := firstn 10 allFiles in
    let remaining := length allFiles - 10 in
    fence_open ++ join [newline] showing ++ [newline] ++
    lit "... and " ++ of_nat remaining ++ lit " more" ++ fence_close
  else fence_open ++ join [newline] allFiles ++ fence_close.

Definition has_entries (v : option (list jsstr)) : bool :=
  match v with Some l => 0 <? length l | None => false end.

Definition getCommitColor (commit : Commit) : N :=
  let hasAdditions := has_entries (added commit) in
  let hasDeletions := has_entries (removed commit) in
  if hasAdditions && negb hasDeletions then 2664261%N       (* 0x28a745 *)
  else if hasDeletions && negb hasAdditions then 14431557%N (* 0xdc3545 *)
  else if hasAdditions && hasDeletions then 16761095%N      (* 0xffc107 *)
  else 7291585%N.                                           (* 0x6f42c1 *)

(** The separator between the short commit id and the date in the footer. *)
Definition footer_sep : jsstr := [32%N; bullet; 32%N].

Definition memo_emoji : jsstr := [55357%N; 56541%N].    (* U+1F4DD *)
Definition herb_emoji : jsstr := [55356%N; 57151%N].    (* U+1F33F *)
Definition chart_emoji : jsstr := [55357%N; 56522%N].   (* U+1F4CA *)
Definition wrench_emoji : jsstr := [55357%N; 56615%N].  (* U+1F527 *)

Section WithLocale.

(** [new Date(ts).toLocaleString()] depends on the locale and the time
    zone of the host. *)
Variable toLocaleString : jsstr -> jsstr.

Definition createCommitEmbed (payload : Payload) : option Embed :=
  match commits payload with
  | None => None
  | Some cs =>
      if length cs =? 0 then None
      else
        match nth_error cs (length cs - 1) with
        | None => None
        | Some commit =>
            let repo := repository payload in
            let branch :=
              if truthy_opt (ref payload)
              then replace_first (lit "refs/heads/") [] (or_empty (ref payload))
              else lit "unknown" in
            let totalStats := calculateTotalChanges cs in
            Some {|
              color := getCommitColor commit;
              title := memo_emoji ++ lit " New commit to " ++ repo_name repo;
              embed_url := url commit;
              embed_author := {|
                embed_author_name := author_name (author commit);
                icon_url := if truthy_opt (author_avatar (author commit))
                            then author_avatar (author commit) else None |};
              description := formatCommitMessage (message commit);
              fields := [
                {| field_name := herb_emoji ++ lit " Branch";
                   field_value := lit "`" ++ branch ++ lit "`";
                   inline := true |};
                {| field_name := chart_emoji ++ lit " Changes";
                   field_value := formatChangeStats totalStats;
                   inline := true |};
                {| field_name := wrench_emoji ++ lit " Files Modified";
                   field_value := formatFileChanges commit;
                   inline := false |} ];
              footer_text :=
                Some (substring0 7 (id commit) ++ footer_sep ++
                      toLocaleString (timestamp commit));
              embed_timestamp := timestamp commit
            |}
        end
  end.

End WithLocale.

Definition hammer_emoji : jsstr := [55357%N; 56616%N].  (* U+1F528 *)
Definition double_quote : code_unit := 34%N.

Definition NO_DETAILS : jsstr := lit "New activity on repository (no commit details)".

(** The plain-text fallback.  Reading [commit.author] of a missing commit
    would throw. *)
Definition createSimpleCommitMessage (payload : Payload) : Exc jsstr :=
  match commits payload with
  | None => Ok NO_DETAILS
  | Some cs =>
      if length cs =? 0 then Ok NO_DETAILS
      else
        match nth_error cs (length cs - 1) with
        | None => Throw (lit "TypeError")
        | Some commit =>
            let repo := repo_name (repository payload) in
            let author := author_name (author commit) in
            let message := formatCommitMessage (message commit) in
            Ok (hammer_emoji ++ lit " **" ++ author ++ lit "** pushed to **" ++
                repo ++ lit "**:" ++ [newline] ++ [double_quote] ++ message ++
                [double_quote] ++ [newline] ++ url commit)
        end
  end.

End Formatter.

(* ------------------------------------------------------------------ *)
(** ** commit-tracker.js *)

Module Tracker.

(** The optional [metadata] argument of [updateLastSeenCommit]: when it is
    an object, each of its three fields may be missing; the default is the
    empty object.  One caller passes a string in this position, whose
    [author], [message] and [timestamp] properties are [undefined]. *)
Record Metadata := mkMetadata {
  meta_author : option jsstr;
  meta_message : option jsstr;
  meta_timestamp : option jsstr
}.

Definition no_metadata : Metadata := mkMetadata None None None.

Inductive MetadataArg :=
| MetaObject (m : Metadata)
| MetaString (s : jsstr).

Definition prop (f : Metadata -> option jsstr) (a : MetadataArg) : option jsstr :=
  match a with
  | MetaObject m => f m
  | MetaString _ => None
  end.

Record StoredMetadata := mkStoredMetadata {
  stored_author : jsstr;
  stored_message : jsstr;
  stored_timestamp : jsstr
}.

(** The document held by [data/last-commit.json], as [JSON.parse] returns
    it.  [JSON.parse (JSON.stringify d)] gives back [d] for a document of
    strings, so the file is modelled by the document it holds. *)
Record TrackerDoc := mkTrackerDoc {
  lastCommitSha : option jsstr;
  lastUpdated : option jsstr;
  metadata : option StoredMetadata
}.

Inductive FileContent :=
| Unparseable
| Json (doc : TrackerDoc).

Record FS := mkFS {
  dataDir : bool;                     (* the data directory exists *)
  trackerFile : option FileContent;   (* [None]: no such file *)
  writable : bool                     (* writes and mkdir succeed *)
}.

Definition ensureDataDirectory (fs : FS) : Exc unit * FS :=
  if dataDir fs then (Ok tt, fs)
  else if writable fs
       then (Ok tt, mkFS true (trackerFile fs) (writable fs))
       else (Throw (lit "EACCES"), fs).

Definition readFile (fs : FS) : Exc FileContent :=
  match trackerFile fs with
  | Some c => Ok c
  | None => Throw (lit "ENOENT")
  end.

Definition JSON_parse (c : FileContent) : Exc TrackerDoc :=
  match c with
  | Json doc => Ok doc
  | Unparseable => Throw (lit "SyntaxError")
  end.

Definition getLastSeenCommit (fs : FS) : option jsstr * FS :=
  let '(r, fs1) := ensureDataDirectory fs in
  let body :=
    _ <- r ;;
    data <- readFile fs1 ;;
    parsed <- JSON_parse data ;;
    Ok (if truthy_opt (lastCommitSha parsed) then lastCommitSha parsed else None) in
  match try_catch body (fun _ => Ok None) with
  | Ok v => (v, fs1)
  | Throw _ => (None, fs1)
  end.

Definition writeFile (c : FileContent) (fs : FS) : Exc unit * FS :=
  if writable fs then (Ok tt, mkFS (dataDir fs) (Some c) (writable fs))
  else (Throw (lit "EACCES"), fs).

(** [now] is the value of [new Date().toISOString()] during the call. *)
Definition updateLastSeenCommit (now : jsstr) (commitSha : jsstr)
           (metadata : MetadataArg) (fs : FS) : Exc unit * FS :=
  match ensureDataDirectory fs with
  | (Throw e, fs1) => (Throw e, fs1)
  | (Ok _, fs1) =>
      let data := {|
        lastCommitSha := Some commitSha;
        lastUpdated := Some now;
        metadata := Some {|
          stored_author := or_else (prop meta_author metadata) (lit "unknown");
          stored_message := or_else (prop meta_message metadata) (lit "unknown");
          stored_timestamp := or_else (prop meta_timestamp metadata) now |} |} in
      writeFile (Json data) fs1
  end.

Definition isNewCommit (commitSha : jsstr) (fs : FS) : bool * FS :=
  let '(lastSeen, fs1) := getLastSeenCommit fs in
  match lastSeen with
  | Some seen => if truthy seen then (negb (eqb commitSha seen), fs1) else (true, fs1)
  | None => (true, fs1)
  end.

Record TrackingInfo := mkTrackingInfo {
  hasTracking : bool;
  info_lastCommitSha : option jsstr;
  info_lastUpdated : option jsstr;
  info_metadata : option StoredMetadata
}.

Definition getTrackingInfo (fs : FS) : TrackingInfo * FS :=
  let '(r, fs1) := ensureDataDirectory fs in
  let body :=
    _ <- r ;;
    data <- readFile fs1 ;;
    parsed <- JSON_parse data ;;
    Ok (mkTrackingInfo true (lastCommitSha parsed) (lastUpdated parsed)
                       (metadata parsed)) in
  match try_catch body (fun _ => Ok (mkTrackingInfo false None None None)) with
  | Ok v => (v, fs1)
  | Throw _ => (mkTrackingInfo false None None None, fs1)
  end.

(** The [metadata] object of a tracking record, read as an argument of
    [updateLastSeenCommit]. *)
Definition snapshot_of (s : StoredMetadata) : Metadata :=
  mkMetadata (Some (stored_author s)) (Some (stored_message s))
             (Some (stored_timestamp s)).

Definition resetTracking (fs : FS) : FS :=
  match trackerFile fs with
  | Some _ => if writable fs then mkFS (dataDir fs) None (writable fs) else fs
  | None => fs
  end.

End Tracker.

(* ------------------------------------------------------------------ *)
(** ** github-service.js *)

Module Service.

Definition REPO_OWNER : jsstr := lit "OMGLASERSPEWPEWPEW".
Definition REPO_NAME : jsstr := lit "berghain-bot".

(** One element of the array the commits endpoint answers with. *)
Record GithubCommit := mkGithubCommit {
  gh_sha : jsstr;
  gh_message : jsstr;
  gh_author_name : jsstr;
  gh_author_email : jsstr;
  gh_author_date : jsstr;
  gh_html_url : jsstr;
  gh_avatar_url : option jsstr
}.

Definition transformCommitData (githubCommit : GithubCommit) : Commit := {|
  id := gh_sha githubCommit;
  sha := gh_sha githubCommit;
  message := gh_message githubCommit;
  timestamp := gh_author_date githubCommit;
  url := gh_html_url githubCommit;
  author := {| author_name := gh_author_name githubCommit;
               author_email := gh_author_email githubCommit;
               author_avatar := gh_avatar_url githubCommit |};
  added := Some [];
  modified := Some [];
  removed := Some [];
  stats := Some (mkStats 0 0 0)
|}.

Record FileEntry := mkFileEntry {
  status : jsstr;
  filename : jsstr
}.

Record RespStats := mkRespStats {
  resp_additions : option N;
  resp_deletions : option N;
  resp_total : option N
}.

(** The answer of the single-commit endpoint. *)
Record CommitResponse := mkCommitResponse {
  files : option (list FileEntry);
  resp_stats : option RespStats
}.

(** What [fetchCommitDetails] returns. *)
Record FileChanges := mkFileChanges {
  fc_added : list jsstr;
  fc_modified : list jsstr;
  fc_removed : list jsstr;
  fc_stats : Stats
}.

(** The two endpoints of the source, as [axios.get] sees them: the commit
    list of a repository for a page size, and one commit by its id. *)
Record GithubApi := mkGithubApi {
  get_commits : jsstr -> jsstr -> nat -> Exc (list GithubCommit);
  get_commit : jsstr -> jsstr -> jsstr -> Exc CommitResponse
}.

Section WithApi.

Variable api : GithubApi.

Definition fetchLatestCommits (owner repo : jsstr) (limit : nat)
  : Exc (list Commit) :=
  try_catch
    (data <- get_commits api owner repo limit ;;
     Ok (map transformCommitData data))
    (fun error => Throw error).

Definition checkForNewCommits (owner repo : jsstr)
           (lastSeenCommitHash : option jsstr) : Exc (list Commit) :=
  try_catch
    (allCommits <- fetchLatestCommits owner repo 20 ;;
     match lastSeenCommitHash with
     | Some hash =>
         if negb (truthy hash) then Ok (firstn 1 allCommits)
         else
           match findIndex (fun commit => eqb (sha commit) hash) allCommits with
           | None => Ok (firstn 1 allCommits)
           | Some lastSeenIndex =>
               let newCommits := firstn lastSeenIndex allCommits in
               Ok (rev newCommits)
           end
     | None => Ok (firstn 1 allCommits)
     end)
    (fun _ => Ok []).

Definition num_or_0 (s : option RespStats) (f : RespStats -> option N) : N :=
  match s with
  | Some st => match f st with Some n => n | None => 0%N end
  | None => 0%N
  end.

Definition with_status (st : jsstr) (fs : list FileEntry) : list jsstr :=
  map filename (filter (fun f => eqb (status f) st) fs).

Definition fetchCommitDetails (owner repo commitSha : jsstr) : Exc FileChanges :=
  try_catch
    (commit <- get_commit api owner repo commitSha ;;
     let files := or_empty (files commit) in
     Ok {| fc_added := with_status (lit "added") files;
           fc_modified := with_status (lit "modified") files;
           fc_removed := with_status (lit "removed") files;
           fc_stats := {|
             additions := num_or_0 (resp_stats commit) resp_additions;
             deletions := num_or_0 (resp_stats commit) resp_deletions;
             total := num_or_0 (resp_stats commit) resp_total |} |})
    (fun _ => Ok {| fc_added := []; fc_modified := []; fc_removed := [];
                    fc_stats := mkStats 0 0 0 |}).

End WithApi.

(** The order of the source: in a newest-first window, the commit with id
    [a] is strictly newer than the commit with id [b] when it comes
    first. *)
Definition newer_in (window : list Commit) (a b : jsstr) : bool :=
  match findIndex (fun commit => eqb (sha commit) a) window,
        findIndex (fun commit => eqb (sha commit) b) window with
  | Some i, Some j => i <? j
  | _, _ => false
  end.

End Service.

(* ------------------------------------------------------------------ *)
(** ** bot.js: the poll cycle *)

Module Bot.

Record Message := mkMessage {
  msg_author_id : jsstr;
  embeds : list Embed
}.

(** What a cycle reads and writes: the tracker file and the channel cache,
    each cached channel with its messages, newest first. *)
Record World := mkWorld {
  fs : Tracker.FS;
  channels : list (jsstr * list Message)
}.

(** What a cycle depends on and cannot change. *)
Record Env := mkEnv {
  api : Service.GithubApi;
  client_user_id : jsstr;
  toLocaleString : jsstr -> jsstr;
  now : jsstr;
  send_fails : Embed -> bool;      (* [channel.send] rejects *)
  history_fails : bool             (* [channel.messages.fetch] rejects *)
}.

(** [client.channels.cache.get(id)]. *)
Fixpoint cache_get (channelId : jsstr) (cs : list (jsstr * list Message))
  : option (list Message) :=
  match cs with
  | [] => None
  | (k, msgs) :: rest => if eqb k channelId then Some msgs else cache_get channelId rest
  end.

Fixpoint cache_push (channelId : jsstr) (m : Message)
         (cs : list (jsstr * list Message)) : list (jsstr * list Message) :=
  match cs with
  | [] => []
  | (k, msgs) :: rest =>
      if eqb k channelId then (k, m :: msgs) :: rest
      else (k, msgs) :: cache_push channelId m rest
  end.

(** [await channel.send({ embeds: [embed] })]. *)
Definition send (env : Env) (channelId : jsstr) (embed : Embed) (w : World)
  : Exc unit * World :=
  if send_fails env embed then (Throw (lit "send failed"), w)
  else (Ok tt,
        mkWorld (fs w)
                (cache_push channelId (mkMessage (client_user_id env) [embed])
                            (channels w))).

(** The loop over [messages.values()] of [getLastCommitFromChannel]. *)
Fixpoint scan_messages (me : jsstr) (messages : list Message) : option jsstr :=
  match messages with
  | [] => None
  | message :: rest =>
      if eqb (msg_author_id message) me && (0 <? length (embeds message)) then
        match embeds message with
        | embed :: _ =>
            if truthy_opt (footer_text embed)
            then Some (split_head Formatter.footer_sep (or_empty (footer_text embed)))
            else scan_messages me rest
        | [] => scan_messages me rest
        end
      else scan_messages me rest
  end.

Definition getLastCommitFromChannel (env : Env) (channelId : jsstr) (w : World)
  : option jsstr :=
  match cache_get channelId (channels w) with
  | None => None
  | Some history =>
      if history_fails env then None
      else scan_messages (client_user_id env) (firstn 10 history)
  end.

(** [{ ...commit, ...details }]. *)
Definition enhance (commit : Commit) (details : Service.FileChanges) : Commit := {|
  id := id commit;
  sha := sha commit;
  message := message commit;
  timestamp := timestamp commit;
  url := url commit;
  author := author commit;
  added := Some (Service.fc_added details);
  modified := Some (Service.fc_modified details);
  removed := Some (Service.fc_removed details);
  stats := Some (Service.fc_stats details)
|}.

Definition fakePayload (displayName : jsstr) (enhancedCommit : Commit) : Payload := {|
  commits := Some [enhancedCommit];
  repository := {| repo_name := displayName |};
  ref := Some (lit "refs/heads/main")
|}.

(** The [for (const commit of newCommits)] loop shared by both versions. *)
Fixpoint notify_each (env : Env) (owner repo displayName channelId : jsstr)
         (newCommits : list Commit) (w : World) : Exc unit * World :=
  match newCommits with
  | [] => (Ok tt, w)
  | commit :: rest =>
      match Service.fetchCommitDetails (api env) owner repo (sha commit) with
      | Throw e => (Throw e, w)
      | Ok details =>
          let enhancedCommit := enhance commit details in
          match Formatter.createCommitEmbed (toLocaleString env)
                  (fakePayload displayName enhancedCommit) with
          | Some embed =>
              match send env channelId embed w with
              | (Ok _, w1) => notify_each env owner repo displayName channelId rest w1
              | (Throw e, w1) => (Throw e, w1)
              end
          | None => notify_each env owner repo displayName channelId rest w
          end
      end
  end.

(** The embed the loop builds for one commit. *)
Definition notification (env : Env) (owner repo displayName : jsstr) (commit : Commit)
  : option Embed :=
  match Service.fetchCommitDetails (api env) owner repo (sha commit) with
  | Ok details =>
      Formatter.createCommitEmbed (toLocaleString env)
        (fakePayload displayName (enhance commit details))
  | Throw _ => None
  end.

(** The message a delivered embed becomes in the channel. *)
Definition posted (env : Env) (embed : Embed) : Message :=
  mkMessage (client_user_id env) [embed].

Definition last_sha (newCommits : list Commit) : Exc jsstr :=
  match nth_error newCommits (length newCommits - 1) with
  | Some c => Ok (sha c)
  | None => Throw (lit "TypeError")
  end.

Definition CHANNEL_ID : jsstr := lit "1412917309328195644".

(** The [try] block of [pollForCommits] in the single-repository bot.js. *)
Definition pollForCommits_try (env : Env) (w : World) : Exc unit * World :=
  let '(lastSeen, fs1) := Tracker.getLastSeenCommit (fs w) in
  let w1 := mkWorld fs1 (channels w) in
  match Service.checkForNewCommits (api env) Service.REPO_OWNER Service.REPO_NAME
                                   lastSeen with
  | Throw e => (Throw e, w1)
  | Ok newCommits =>
      if 0 <? length newCommits then
        match cache_get CHANNEL_ID (channels w1) with
        | Some _ =>
            match notify_each env Service.REPO_OWNER Service.REPO_NAME
                              (lit "berghain-bot") CHANNEL_ID newCommits w1 with
            | (Throw e, w2) => (Throw e, w2)
            | (Ok _, w2) =>
                match last_sha newCommits with
                | Throw e => (Throw e, w2)
                | Ok latest =>
                    let '(r, fs3) :=
                      Tracker.updateLastSeenCommit (now env) latest
                        (Tracker.MetaObject Tracker.no_metadata) (fs w2) in
                    (r, mkWorld fs3 (channels w2))
                end
            end
        | None => (Ok tt, w1)
        end
      else (Ok tt, w1)
  end.

(** [pollForCommits]: the [catch] logs the error and the cycle ends. *)
Definition pollForCommits (env : Env) (w : World) : World :=
  snd (pollForCommits_try env w).

Record RepoConfig := mkRepoConfig {
  rc_owner : jsstr;
  rc_repo : jsstr;
  rc_channelId : jsstr;
  rc_displayName : jsstr
}.

Definition REPO_CONFIG : list RepoConfig := [
  mkRepoConfig (lit "OMGLASERSPEWPEWPEW") (lit "berghain-bot")
               (lit "1412917309328195644") (lit "Berghain Bot");
  mkRepoConfig (lit "OMGLASERSPEWPEWPEW") (lit "GlyffitiMobile")
               (lit "1332457876643516416") (lit "Glyffiti Mobile") ].

(** The [try] block of [pollForCommits] in the multi-repository bot.js,
    for one entry of [REPO_CONFIG]. *)
Definition pollForCommits_multi_try (repoConfig : RepoConfig) (env : Env) (w : World)
  : Exc unit * World :=
  let lastSeen := getLastCommitFromChannel env (rc_channelId repoConfig) w in
  match Service.checkForNewCommits (api env) (rc_owner repoConfig)
                                   (rc_repo repoConfig) lastSeen with
  | Throw e => (Throw e, w)
  | Ok newCommits =>
      if 0 <? length newCommits then
        match cache_get (rc_channelId repoConfig) (channels w) with
        | Some _ =>
            match notify_each env (rc_owner repoConfig) (rc_repo repoConfig)
                              (rc_displayName repoConfig) (rc_channelId repoConfig)
                              newCommits w with
            | (Throw e, w2) => (Throw e, w2)
            | (Ok _, w2) =>
                match last_sha newCommits with
                | Throw e => (Throw e, w2)
                | Ok latest =>
                    let '(r, fs3) :=
                      Tracker.updateLastSeenCommit (now env) (rc_repo repoConfig)
                        (Tracker.MetaString latest) (fs w2) in
                    (r, mkWorld fs3 (channels w2))
                end
            end
        | None => (Ok tt, w)
        end
      else (Ok tt, w)
  end.

Definition pollForCommits_multi (repoConfig : RepoConfig) (env : Env) (w : World)
  : World :=
  snd (pollForCommits_multi_try repoConfig env w).



End Bot.

(* ------------------------------------------------------------------ *)
(** ** Sample data *)

Module Samples.

Definition octocat : Author :=
  mkAuthor (lit "octocat") (lit "octocat@example.com") None.

(** A commit as the commits endpoint lists it. *)
Definition listed (sha msg date : string) : Service.GithubCommit :=
  Service.mkGithubCommit (lit sha) (lit msg) (lit "octocat")
    (lit "octocat@example.com") (lit date)
    (lit "https://github.com/o/r/commit/" ++ lit sha) None.

Definition g1 := listed "c1" "first" "2025-09-01T10:00:00Z".
Definition g2 := listed "c2" "second" "2025-09-02T10:00:00Z".
Definition g3 := listed "c3" "third" "2025-09-03T10:00:00Z".
Definition g4 := listed "c4" "fourth" "2025-09-04T10:00:00Z".
Definition g5 := listed "c5" "fifth" "2025-09-05T10:00:00Z".

(** A source whose whole history is [history], newest first, and whose
    single-commit endpoint answers [detail]. *)
Definition source (history : list Service.GithubCommit)
           (detail : jsstr -> Exc Service.CommitResponse) : Service.GithubApi :=
  Service.mkGithubApi (fun _ _ limit => Ok (firstn limit history))
                      (fun _ _ commitSha => detail commitSha).

Definition no_detail : jsstr -> Exc Service.CommitResponse :=
  fun _ => Throw (lit "Request failed with status code 500").

Definition api_c5 : Service.GithubApi := source [g5; g4; g3; g2; g1] no_detail.

(** Twelve changed paths: five added, four modified, three removed. *)
Definition twelve_files : Commit := {|
  id := lit "c1"; sha := lit "c1"; message := lit "big";
  timestamp := lit "2025-09-01T10:00:00Z"; url := lit "https://example.com/c1";
  author := octocat;
  added := Some [lit "a1"; lit "a2"; lit "a3"; lit "a4"; lit "a5"];
  modified := Some [lit "m1"; lit "m2"; lit "m3"; lit "m4"];
  removed := Some [lit "r1"; lit "r2"; lit "r3"];
  stats := None
|}.

Definition small_change : Commit := {|
  id := lit "0123456789abcdef0123456789abcdef01234567";
  sha := lit "0123456789abcdef0123456789abcdef01234567";
  message := lit "Fix the parser" ++ [newline] ++ [newline] ++ lit "Details follow.";
  timestamp := lit "2025-09-02T10:00:00Z"; url := lit "https://example.com/c2";
  author := octocat;
  added := Some [lit "x"];
  modified := Some [lit "y"; lit "z"];
  removed := None;
  stats := None
|}.

(** A push of two commits, as the webhook receives it. *)
Definition push_of_two : Payload := {|
  commits := Some [twelve_files; small_change];
  repository := {| repo_name := lit "r" |};
  ref := Some (lit "refs/heads/main")
|}.

(** A host whose [toLocaleString] leaves the ISO text as it is. *)
Definition iso_locale : jsstr -> jsstr := fun ts => ts.

Definition BOT_ID : jsstr := lit "900000000000000001".

(** A cycle over [api] in which every delivery succeeds. *)
Definition env_of (api : Service.GithubApi) (now : string) : Bot.Env :=
  Bot.mkEnv api BOT_ID iso_locale (lit now) (fun _ => false) false.

Definition env_c5 : Bot.Env := env_of api_c5 "2025-09-06T00:00:00.000Z".

(** No tracker file yet, and the notification channel cached and empty. *)
Definition fresh_world : Bot.World :=
  Bot.mkWorld (Tracker.mkFS true None true) [(Bot.CHANNEL_ID, [])].

Definition SHA40 : jsstr := lit "0123456789abcdef0123456789abcdef01234567".
Definition NOW : jsstr := lit "2025-09-06T00:00:00.000Z".

(** The data directory exists and holds no tracker file. *)
Definition empty_fs : Tracker.FS := Tracker.mkFS true None true.

(** Three commits with ids as git writes them, oldest first. *)
Definition h1 := listed "ec0b4f0b5c90ed0fa911a2972ccc452641b31563" "one"
                        "2025-09-01T10:00:00Z".
Definition h2 := listed "54563f95fefa691baa82a522156322c21f7d6df3" "two"
                        "2025-09-02T10:00:00Z".
Definition h3 := listed "59395c05c18b9c8904853715d4136921de0b48f1" "three"
                        "2025-09-03T10:00:00Z".

Definition api_h : Service.GithubApi := source [h3; h2; h1] no_detail.
Definition env_h : Bot.Env := env_of api_h "2025-09-06T00:00:00.000Z".

(** The first entry of [REPO_CONFIG]. *)
Definition berghain : Bot.RepoConfig :=
  Bot.mkRepoConfig (lit "OMGLASERSPEWPEWPEW") (lit "berghain-bot")
                   (lit "1412917309328195644") (lit "Berghain Bot").

(** The channel of [berghain] after the bot has posted the embeds [es], the
    last of them first. *)
Definition world_with (es : list Embed) : Bot.World :=
  Bot.mkWorld empty_fs
    [(Bot.CHANNEL_ID, map (fun e => Bot.mkMessage BOT_ID [e]) es)].

(** The history [c3, c2, c1], and the same history after a forced push has
    taken [c3] away. *)
Definition env_c3 : Bot.Env :=
  env_of (source [g3; g2; g1] no_detail) "2025-09-06T00:00:00.000Z".
Definition env_c3_rewound : Bot.Env :=
  env_of (source [g2; g1] no_detail) "2025-09-06T00:03:00.000Z".

(** The tracker holds the cursor [c3]. *)
Definition world_at_c3 : Bot.World :=
  Bot.mkWorld
    (Tracker.mkFS true
       (Some (Tracker.Json
                (Tracker.mkTrackerDoc (Some (lit "c3")) (Some (lit "2025-09-05T00:00:00.000Z"))
                   (Some (Tracker.mkStoredMetadata (lit "unknown") (lit "unknown")
                            (lit "2025-09-05T00:00:00.000Z"))))))
       true)
    [(Bot.CHANNEL_ID, [])].

(** A store that holds the cursor [c3] and refuses writes. *)
Definition readonly_fs : Tracker.FS :=
  Tracker.mkFS true
    (Some (Tracker.Json
             (Tracker.mkTrackerDoc (Some (lit "c3")) (Some (lit "2025-09-05T00:00:00.000Z"))
                (Some (Tracker.mkStoredMetadata (lit "unknown") (lit "unknown")
                         (lit "2025-09-05T00:00:00.000Z"))))))
    false.

(** The embed the poller builds for [h3] from [env_h]. *)
Definition embed_h3 : option Embed :=
  Bot.notification env_h (lit "OMGLASERSPEWPEWPEW") (lit "berghain-bot")
                   (lit "Berghain Bot") (Service.transformCommitData h3).

(** The window [c5 .. c1] with a channel that refuses every message. *)
Definition env_c5_send_fails : Bot.Env :=
  Bot.mkEnv api_c5 BOT_ID iso_locale (lit "2025-09-06T00:00:00.000Z")
            (fun _ => true) false.

(** A source that cannot be reached. *)
Definition api_down : Service.GithubApi :=
  Service.mkGithubApi (fun _ _ _ => Throw (lit "Network Error"))
                      (fun _ _ _ => Throw (lit "Network Error")).
Definition env_down : Bot.Env := env_of api_down "2025-09-06T00:00:00.000Z".

End Samples.

(* ------------------------------------------------------------------ *)
(** * Properties *)

(** ** Strings and arrays *)

Lemma eqb_eq (a b : jsstr) : eqb a b = true <-> a = b.
Proof.
  revert b; induction a as [|x a IH]; intros [|y b]; simpl; split;
    try congruence; try reflexivity.
  - intros H. apply andb_true_iff in H as [Hx Hr].
    apply N.eqb_eq in Hx. apply IH in Hr. congruence.
  - intros H. injection H as -> ->.
    rewrite N.eqb_refl. simpl. now apply IH.
Qed.

Lemma eqb_neq (a b : jsstr) : eqb a b = false <-> a <> b.
Proof.
  split.
  - intros H E. apply eqb_eq in E. congruence.
  - intros H. destruct (eqb a b) eqn:E; [|reflexivity].
    apply eqb_eq in E. contradiction.
Qed.

Lemma eqb_refl (a : jsstr) : eqb a a = true.
Proof. now apply eqb_eq. Qed.

Lemma startsWith_app (pat rest : jsstr) : startsWith pat (pat ++ rest) = true.
Proof.
  induction pat as [|p pat IH]; simpl; [reflexivity|].
  now rewrite N.eqb_refl.
Qed.

(** The text before the first occurrence of a one-unit separator. *)
Lemma split_head_unit_spec (c : code_unit) (s : jsstr) :
  ~ In c (split_head [c] s) /\
  (s = split_head [c] s \/ exists rest, s = split_head [c] s ++ c :: rest).
Proof.
  induction s as [|x s [IHn IHs]]; simpl.
  - split; [tauto | now left].
  - destruct (N.eqb c x) eqn:E; simpl.
    + apply N.eqb_eq in E. subst x. split; [tauto|].
      right. now exists s.
    + apply N.eqb_neq in E. split.
      * simpl. intros [H|H]; [congruence | contradiction].
      * destruct IHs as [H|[rest H]].
        -- left. now f_equal.
        -- right. exists rest. simpl. now f_equal.
Qed.

Lemma findIndex_Some {A : Type} (p : A -> bool) (l : list A) (i : nat) :
  findIndex p l = Some i <->
  (exists x, nth_error l i = Some x /\ p x = true) /\
  (forall j y, j < i -> nth_error l j = Some y -> p y = false).
Proof.
  revert i; induction l as [|a l IH]; intros i; simpl.
  - split; [discriminate|]. intros [[x [H _]] _]. destruct i; discriminate.
  - destruct (p a) eqn:Pa.
    + split.
      * intros H. injection H as <-. split; [now exists a|]. intros j y Hj. lia.
      * intros [[x [Hx Px]] Hfirst]. destruct i as [|i]; [reflexivity|].
        specialize (Hfirst 0 a (Nat.lt_0_succ i) eq_refl). congruence.
    + destruct (findIndex p l) as [k|] eqn:F.
      * split.
        -- intros H. injection H as <-.
           destruct (proj1 (IH k) eq_refl) as [Hx Hfirst]. split; [exact Hx|].
           intros [|j] y Hj Hy; simpl in Hy.
           ++ congruence.
           ++ apply (Hfirst j); [lia | exact Hy].
        -- intros [[x [Hx Px]] Hfirst]. destruct i as [|i]; simpl in Hx.
           ++ congruence.
           ++ f_equal. assert (E : Some k = Some i); [|congruence].
              apply IH. split; [now exists x|].
              intros j y Hj Hy. apply (Hfirst (S j)); [lia | exact Hy].
      * split; [discriminate|].
        intros [[x [Hx Px]] Hfirst]. destruct i as [|i]; simpl in Hx.
        -- congruence.
        -- assert (E : None = Some i); [|discriminate].
           apply IH. split; [now exists x|].
           intros j y Hj Hy. apply (Hfirst (S j)); [lia | exact Hy].
Qed.

Lemma findIndex_None {A : Type} (p : A -> bool) (l : list A) :
  findIndex p l = None <-> forall x, In x l -> p x = false.
Proof.
  induction l as [|a l IH]; simpl.
  - split; [intros _ x [] | reflexivity].
  - destruct (p a) eqn:Pa.
    + split; [discriminate|]. intros H. specialize (H a (or_introl eq_refl)). congruence.
    + destruct (findIndex p l) as [k|].
      * split; [discriminate|]. intros H.
        assert (E : Some k = None); [|discriminate].
        apply IH. intros x Hx. apply H. now right.
      * split; [|reflexivity]. intros _ x [<-|Hx]; [exact Pa|].
        now apply (proj1 IH).
Qed.

(** ** Change detection *)

Section Detection.

Import Service.

Variable api : GithubApi.
Variables owner repo : jsstr.

Lemma checkForNewCommits_window (data : list GithubCommit) (cursor : option jsstr) :
  get_commits api owner repo 20 = Ok data ->
  checkForNewCommits api owner repo cursor =
    let W := map transformCommitData data in
    match cursor with
    | Some hash =>
        if truthy hash then
          match findIndex (fun commit => eqb (sha commit) hash) W with
          | Some i => Ok (rev (firstn i W))
          | None => Ok (firstn 1 W)
          end
        else Ok (firstn 1 W)
    | None => Ok (firstn 1 W)
    end.
Proof.
  intros Hget. unfold checkForNewCommits, fetchLatestCommits. rewrite Hget. simpl.
  destruct cursor as [hash|]; [|reflexivity].
  destruct (truthy hash); simpl; [|reflexivity].
  now destruct (findIndex _ _).
Qed.

(** A failed query is contained: detection returns no commit. *)
Lemma checkForNewCommits_query_failure (e : jsstr) (cursor : option jsstr) :
  get_commits api owner repo 20 = Throw e ->
  checkForNewCommits api owner repo cursor = Ok [].
Proof.
  intros Hget. unfold checkForNewCommits, fetchLatestCommits. now rewrite Hget.
Qed.

Lemma checkForNewCommits_never_throws (cursor : option jsstr) :
  exists l, checkForNewCommits api owner repo cursor = Ok l.
Proof.
  destruct (get_commits api owner repo 20) as [data|e] eqn:Hget.
  - rewrite (checkForNewCommits_window cursor Hget). simpl.
    destruct cursor as [hash|]; [|eauto].
    destruct (truthy hash); [|eauto]. destruct (findIndex _ _); eauto.
  - rewrite (checkForNewCommits_query_failure cursor Hget). eauto.
Qed.

End Detection.

(** C1. When the query answers the newest-first window [W] and the cursor [c]
    (a non-empty id) occurs in [W] at index [i > 0], with no occurrence
    before [i] (ids are unique in a repository), [checkForNewCommits] returns
    the commits of [W] at indices [0..i-1] in reverse, that is oldest first. *)
Theorem C1_detection_returns_reversed_prefix
        (api : Service.GithubApi) (owner repo : jsstr)
        (data : list Service.GithubCommit) (c : jsstr) (i : nat) (k : Commit) :
  Service.get_commits api owner repo 20 = Ok data ->
  c <> [] ->
  nth_error (map Service.transformCommitData data) i = Some k ->
  sha k = c ->
  (forall j k', j < i -> nth_error (map Service.transformCommitData data) j = Some k' ->
                sha k' <> c) ->
  0 < i ->
  Service.checkForNewCommits api owner repo (Some c) =
    Ok (rev (firstn i (map Service.transformCommitData data))).
Proof.
  intros Hget Hc Hk Hsha Hfirst _.
  rewrite checkForNewCommits_window with (data := data) by exact Hget. simpl.
  destruct c as [|u c]; [congruence|]. simpl.
  assert (F : findIndex (fun commit => eqb (sha commit) (u :: c))
                        (map Service.transformCommitData data) = Some i).
  { apply findIndex_Some. split.
    - exists k. split; [exact Hk|]. now apply eqb_eq.
    - intros j y Hj Hy. apply eqb_neq. now apply (Hfirst j). }
  now rewrite F.
Qed.

(** With unique ids, the index at which an id occurs is its first
    occurrence. *)
Lemma unique_ids_first_occurrence (W : list Commit) (i : nat) (k : Commit) :
  NoDup (map sha W) ->
  nth_error W i = Some k ->
  forall j k', j < i -> nth_error W j = Some k' -> sha k' <> sha k.
Proof.
  intros Hnd Hk j k' Hj Hk' E.
  assert (Hi : nth_error (map sha W) i = Some (sha k)) by now apply map_nth_error.
  assert (Hj' : nth_error (map sha W) j = Some (sha k')) by now apply map_nth_error.
  assert (Hlt : j < length (map sha W)).
  { apply nth_error_Some. rewrite Hj'. discriminate. }
  rewrite E in Hj'. rewrite <- Hi in Hj'.
  pose proof (proj1 (NoDup_nth_error (map sha W)) Hnd j i Hlt Hj'). lia.
Qed.

(** C4. With no cursor, or with a cursor that occurs nowhere in the fetched
    window, [checkForNewCommits] returns normally, with exactly the newest
    commit of the window. *)
Theorem C4_detection_falls_back_to_newest
        (api : Service.GithubApi) (owner repo : jsstr)
        (g : Service.GithubCommit) (data : list Service.GithubCommit)
        (cursor : option jsstr) :
  Service.get_commits api owner repo 20 = Ok (g :: data) ->
  (cursor = None \/
   exists c, cursor = Some c /\
             forall k, In k (map Service.transformCommitData (g :: data)) -> sha k <> c) ->
  Service.checkForNewCommits api owner repo cursor = Ok [Service.transformCommitData g].
Proof.
  intros Hget Hcur.
  rewrite checkForNewCommits_window with (data := g :: data) by exact Hget.
  destruct Hcur as [->|[c [-> Habsent]]]; [reflexivity|].
  cbv zeta. destruct (truthy c); [|reflexivity].
  assert (F : findIndex (fun commit => eqb (sha commit) c)
                        (map Service.transformCommitData (g :: data)) = None).
  { apply findIndex_None. intros x Hx. apply eqb_neq. now apply Habsent. }
  now rewrite F.
Qed.

(** ** Message formatting *)

Lemma lit_length_dots : length (lit "...") = 3.
Proof. reflexivity. Qed.

(** C6. The description is the first line of the message, the text before
    the first line break.  A first line of at most 100 code units is returned
    unchanged; a longer one is cut to its first 97 code units followed by
    three dots, 100 code units in all. *)
Theorem C6_formatCommitMessage_first_line_truncated (message : jsstr) :
  let firstLine := split_head [newline] message in
  (~ In newline firstLine /\
   (message = firstLine \/ exists rest, message = firstLine ++ newline :: rest)) /\
  (length firstLine <= 100 -> Formatter.formatCommitMessage message = firstLine) /\
  (100 < length firstLine ->
   Formatter.formatCommitMessage message = firstn 97 firstLine ++ lit "..." /\
   length (Formatter.formatCommitMessage message) = 100).
Proof.
  intros firstLine. split; [apply split_head_unit_spec|].
  unfold Formatter.formatCommitMessage. fold firstLine. split.
  - intros Hle. destruct (100 <? length firstLine) eqn:E; [|reflexivity].
    apply Nat.ltb_lt in E. lia.
  - intros Hgt. apply Nat.ltb_lt in Hgt as E. rewrite E. split; [reflexivity|].
    unfold substring0. rewrite length_app, length_firstn, lit_length_dots. lia.
Qed.

(** Decimal digits only. *)
Lemma of_nat_digits (n : nat) (x : code_unit) :
  In x (of_nat n) -> (48 <= x <= 57)%N.
Proof.
  unfold of_nat. generalize (Nat.to_uint n). intros u. revert x.
  induction u; simpl; intros x H; try contradiction;
    destruct H as [<-|H]; try (cbv; split; discriminate); now apply IHu.
Qed.

Lemma formatChangeStats_cases (A R M T : nat) :
  Formatter.formatChangeStats (Formatter.mkTotalStats A R M T) =
    match (if A =? 0 then [] else [lit "+" ++ of_nat A]) ++
          (if R =? 0 then [] else [lit "-" ++ of_nat R]) ++
          (if M =? 0 then [] else [lit "~" ++ of_nat M]) with
    | [] => lit "No changes"
    | terms => join (lit " ") terms
    end.
Proof.
  unfold Formatter.formatChangeStats. cbn [Formatter.total_added Formatter.total_removed
                                            Formatter.total_modified].
  destruct A as [|A], R as [|R], M as [|M]; reflexivity.
Qed.

(** C7. The change string is made of the non-zero terms only, [+A] then [-R]
    then [~M], joined by one space; with no non-zero term it is
    [No changes].  With additions only it is [+A], in which neither [-] nor
    [~] occurs. *)
Theorem C7_formatChangeStats_nonzero_terms (A R M T : nat) :
  let s := Formatter.formatChangeStats (Formatter.mkTotalStats A R M T) in
  let terms := (if A =? 0 then [] else [lit "+" ++ of_nat A]) ++
               (if R =? 0 then [] else [lit "-" ++ of_nat R]) ++
               (if M =? 0 then [] else [lit "~" ++ of_nat M]) in
  (A = 0 /\ R = 0 /\ M = 0 -> s = lit "No changes") /\
  (~ (A = 0 /\ R = 0 /\ M = 0) -> s = join (lit " ") terms) /\
  (0 < A -> 0 < R -> 0 < M ->
   s = lit "+" ++ of_nat A ++ lit " -" ++ of_nat R ++ lit " ~" ++ of_nat M) /\
  (0 < A -> R = 0 -> M = 0 ->
   s = lit "+" ++ of_nat A /\ ~ In 45%N s /\ ~ In 126%N s).
Proof.
  intros s terms. subst s. rewrite formatChangeStats_cases. fold terms.
  split; [|split; [|split]].
  - intros (-> & -> & ->). reflexivity.
  - intros Hnz. subst terms.
    destruct A as [|A], R as [|R], M as [|M]; try reflexivity.
    exfalso. apply Hnz. repeat split.
  - intros HA HR HM. subst terms.
    destruct A as [|A], R as [|R], M as [|M]; try lia.
    reflexivity.
  - intros HA -> ->. subst terms. destruct A as [|A]; [lia|].
    cbn [Nat.eqb app join]. split; [reflexivity|].
    split; (intros [H|H]; [discriminate H | apply of_nat_digits in H; lia]).
Qed.

(** C1 at the window [c5, c4, c3, c2, c1] with the cursor [c3]: the result is
    [c4, c5]. *)
Lemma C1_window_c5_cursor_c3 :
  Service.checkForNewCommits Samples.api_c5 (lit "o") (lit "r") (Some (lit "c3")) =
    Ok [Service.transformCommitData Samples.g4; Service.transformCommitData Samples.g5].
Proof.
  refine (@C1_detection_returns_reversed_prefix Samples.api_c5 (lit "o") (lit "r")
            [Samples.g5; Samples.g4; Samples.g3; Samples.g2; Samples.g1]
            (lit "c3") 2 (Service.transformCommitData Samples.g3)
            eq_refl _ eq_refl eq_refl _ _).
  - discriminate.
  - intros [|[|j]] k' Hj Hk; simpl in Hk.
    + injection Hk as <-. discriminate.
    + injection Hk as <-. discriminate.
    + lia.
  - lia.
Defined.

(** C4 at the same window, with no cursor. *)
Lemma C4_window_c5_no_cursor :
  Service.checkForNewCommits Samples.api_c5 (lit "o") (lit "r") None =
    Ok [Service.transformCommitData Samples.g5].
Proof.
  refine (@C4_detection_falls_back_to_newest Samples.api_c5 (lit "o") (lit "r")
            Samples.g5 [Samples.g4; Samples.g3; Samples.g2; Samples.g1] None
            eq_refl _).
  left. reflexivity.
Defined.

(** The same with a cursor that the window does not contain. *)
Example detection_cursor_outside_window :
  Service.checkForNewCommits Samples.api_c5 (lit "o") (lit "r") (Some (lit "c9")) =
    Ok [Service.transformCommitData Samples.g5].
Proof. reflexivity. Qed.

(** C8. The file list is the added paths behind [+ ], then the modified
    paths behind [~ ], then the removed paths behind [- ], one per line
    inside a [diff] code fence.  More than ten entries: the first ten, then
    the line [... and N more] with [N] the number of entries left out.  No
    entry: [No files changed]. *)
Theorem C8_formatFileChanges_lists_and_truncates (commit : Commit) :
  let entries := Formatter.all_files commit in
  entries = map (fun f => lit "+ " ++ f) (or_empty (added commit)) ++
            map (fun f => lit "~ " ++ f) (or_empty (modified commit)) ++
            map (fun f => lit "- " ++ f) (or_empty (removed commit)) /\
  (entries = [] -> Formatter.formatFileChanges commit = lit "No files changed") /\
  (0 < length entries <= 10 ->
   Formatter.formatFileChanges commit =
     Formatter.fence_open ++ join [newline] entries ++ Formatter.fence_close) /\
  (10 < length entries ->
   Formatter.formatFileChanges commit =
     Formatter.fence_open ++ join [newline] (firstn 10 entries) ++ [newline] ++
     lit "... and " ++ of_nat (length entries - 10) ++ lit " more" ++
     Formatter.fence_close /\
   length (firstn 10 entries) = 10) /\
  Formatter.formatFileChanges Samples.twelve_files =
    Formatter.fence_open ++
    join [newline] [lit "+ a1"; lit "+ a2"; lit "+ a3"; lit "+ a4"; lit "+ a5";
                    lit "~ m1"; lit "~ m2"; lit "~ m3"; lit "~ m4"; lit "- r1"] ++
    [newline] ++ lit "... and 2 more" ++ Formatter.fence_close.
Proof.
  intros entries. unfold Formatter.formatFileChanges.
  fold entries. split; [reflexivity|]. split; [|split; [|split]].
  - intros ->. reflexivity.
  - intros [Hpos Hle].
    destruct (length entries =? 0) eqn:E0; [apply Nat.eqb_eq in E0; lia|].
    destruct (10 <? length entries) eqn:E10; [apply Nat.ltb_lt in E10; lia|].
    reflexivity.
  - intros Hgt.
    destruct (length entries =? 0) eqn:E0; [apply Nat.eqb_eq in E0; lia|].
    apply Nat.ltb_lt in Hgt as E10. rewrite E10. split; [reflexivity|].
    rewrite length_firstn. lia.
  - reflexivity.
Qed.

(** The three accumulators of [calculateTotalChanges] hold the sums of the
    lengths of the three path arrays. *)
Lemma calculateTotalChanges_sums (cs : list Commit) :
  let A := list_sum (map (fun c => length_or_0 (added c)) cs) in
  let R := list_sum (map (fun c => length_or_0 (removed c)) cs) in
  let M := list_sum (map (fun c => length_or_0 (modified c)) cs) in
  Formatter.calculateTotalChanges cs = Formatter.mkTotalStats A R M (A + R + M).
Proof.
  intros A R M. unfold Formatter.calculateTotalChanges.
  set (step := fun (acc : nat * nat * nat) (commit : Commit) =>
                 let '(a, r, m) := acc in
                 (a + length_or_0 (added commit),
                  r + length_or_0 (removed commit),
                  m + length_or_0 (modified commit))).
  assert (G : forall l a r m,
             fold_left step l (a, r, m) =
             (a + list_sum (map (fun c => length_or_0 (added c)) l),
              r + list_sum (map (fun c => length_or_0 (removed c)) l),
              m + list_sum (map (fun c => length_or_0 (modified c)) l))).
  { induction l as [|c l IH]; intros a r m; simpl.
    - now rewrite !Nat.add_0_r.
    - rewrite IH. now rewrite !Nat.add_assoc. }
  rewrite (G cs 0 0 0). reflexivity.
Qed.

Lemma last_index_app {A : Type} (cs : list A) (c : A) :
  nth_error (cs ++ [c]) (length (cs ++ [c]) - 1) = Some c.
Proof.
  rewrite length_app. simpl. replace (length cs + 1 - 1) with (length cs) by lia.
  rewrite nth_error_app2 by lia. now rewrite Nat.sub_diag.
Qed.

(** C10. For a payload whose commit list ends with [c], every part of the
    embed except the [Changes] field is computed from [c], the repository
    name and the ref; the [Changes] field is computed from the numbers of
    added, removed and modified paths summed over the whole list.  Two
    payloads that agree on the last commit, the repository, the ref and
    these three sums give the same embed. *)
Theorem C10_createCommitEmbed_last_commit_and_totals
        (toLocaleString : jsstr -> jsstr) (payload : Payload)
        (cs : list Commit) (c : Commit) :
  commits payload = Some (cs ++ [c]) ->
  let A := list_sum (map (fun k => length_or_0 (added k)) (cs ++ [c])) in
  let R := list_sum (map (fun k => length_or_0 (removed k)) (cs ++ [c])) in
  let M := list_sum (map (fun k => length_or_0 (modified k)) (cs ++ [c])) in
  Formatter.createCommitEmbed toLocaleString payload =
    Some {|
      color := Formatter.getCommitColor c;
      title := Formatter.memo_emoji ++ lit " New commit to " ++
               repo_name (repository payload);
      embed_url := url c;
      embed_author := {|
        embed_author_name := author_name (author c);
        icon_url := if truthy_opt (author_avatar (author c))
                    then author_avatar (author c) else None |};
      description := Formatter.formatCommitMessage (message c);
      fields := [
        {| field_name := Formatter.herb_emoji ++ lit " Branch";
           field_value :=
             lit "`" ++
             (if truthy_opt (ref payload)
              then replace_first (lit "refs/heads/") [] (or_empty (ref payload))
              else lit "unknown") ++ lit "`";
           inline := true |};
        {| field_name := Formatter.chart_emoji ++ lit " Changes";
           field_value :=
             Formatter.formatChangeStats (Formatter.mkTotalStats A R M (A + R + M));
           inline := true |};
        {| field_name := Formatter.wrench_emoji ++ lit " Files Modified";
           field_value := Formatter.formatFileChanges c;
           inline := false |} ];
      footer_text := Some (substring0 7 (id c) ++ Formatter.footer_sep ++
                           toLocaleString (timestamp c));
      embed_timestamp := timestamp c |} /\
  (forall (payload' : Payload) (cs' : list Commit),
      commits payload' = Some (cs' ++ [c]) ->
      repository payload' = repository payload ->
      ref payload' = ref payload ->
      list_sum (map (fun k => length_or_0 (added k)) (cs' ++ [c])) = A ->
      list_sum (map (fun k => length_or_0 (removed k)) (cs' ++ [c])) = R ->
      list_sum (map (fun k => length_or_0 (modified k)) (cs' ++ [c])) = M ->
      Formatter.createCommitEmbed toLocaleString payload' =
      Formatter.createCommitEmbed toLocaleString payload).
Proof.
  intros Hcs A R M.
  assert (G : forall p l,
             commits p = Some (l ++ [c]) ->
             Formatter.createCommitEmbed toLocaleString p =
             Some {|
               color := Formatter.getCommitColor c;
               title := Formatter.memo_emoji ++ lit " New commit to " ++
                        repo_name (repository p);
               embed_url := url c;
               embed_author := {|
                 embed_author_name := author_name (author c);
                 icon_url := if truthy_opt (author_avatar (author c))
                             then author_avatar (author c) else None |};
               description := Formatter.formatCommitMessage (message c);
               fields := [
                 {| field_name := Formatter.herb_emoji ++ lit " Branch";
                    field_value :=
                      lit "`" ++
                      (if truthy_opt (ref p)
                       then replace_first (lit "refs/heads/") [] (or_empty (ref p))
                       else lit "unknown") ++ lit "`";
                    inline := true |};
                 {| field_name := Formatter.chart_emoji ++ lit " Changes";
                    field_value :=
                      Formatter.formatChangeStats (Formatter.calculateTotalChanges (l ++ [c]));
                    inline := true |};
                 {| field_name := Formatter.wrench_emoji ++ lit " Files Modified";
                    field_value := Formatter.formatFileChanges c;
                    inline := false |} ];
               footer_text := Some (substring0 7 (id c) ++ Formatter.footer_sep ++
                                    toLocaleString (timestamp c));
               embed_timestamp := timestamp c |}).
  { intros p l Hp. unfold Formatter.createCommitEmbed. rewrite Hp.
    rewrite last_index_app.
    destruct (length (l ++ [c]) =? 0) eqn:E; [|reflexivity].
    apply Nat.eqb_eq in E. rewrite length_app in E. simpl in E. lia. }
  split.
  - rewrite (G payload cs Hcs). rewrite calculateTotalChanges_sums. reflexivity.
  - intros payload' cs' Hcs' Hrepo Href HA HR HM.
    rewrite (G payload' cs' Hcs'), (G payload cs Hcs).
    rewrite !calculateTotalChanges_sums. cbv zeta.
    rewrite HA, HR, HM, Hrepo, Href. reflexivity.
Qed.

(** C10 at a push of two commits: the description is the first line of the
    second commit's message, the file list is the second commit's, and the
    totals count the paths of both. *)
Lemma C10_push_of_two :
  exists embed,
    Formatter.createCommitEmbed Samples.iso_locale Samples.push_of_two = Some embed /\
    description embed = lit "Fix the parser" /\
    map field_value (fields embed) =
      [lit "`main`"; lit "+6 -3 ~6";
       Formatter.fence_open ++ lit "+ x" ++ [newline] ++ lit "~ y" ++ [newline] ++
       lit "~ z" ++ Formatter.fence_close] /\
    footer_text embed = Some (lit "0123456" ++ Formatter.footer_sep ++
                              lit "2025-09-02T10:00:00Z").
Proof.
  destruct (@C10_createCommitEmbed_last_commit_and_totals
              Samples.iso_locale Samples.push_of_two
              [Samples.twelve_files] Samples.small_change eq_refl) as [H _].
  eexists. split; [exact H|]. repeat split.
Defined.

(** ** Enrichment *)

(** C5. When the request for the details of a commit fails,
    [fetchCommitDetails] returns normally with empty change sets and zero
    stats; the embed built for the commit reads [No changes] and
    [No files changed]; and the poll loop hands this embed to
    [channel.send] and goes on with the remaining commits. *)
Theorem C5_enrichment_failure_degrades
        (env : Bot.Env) (owner repo displayName channelId : jsstr)
        (commit : Commit) (rest : list Commit) (e : jsstr) (w : Bot.World) :
  Service.get_commit (Bot.api env) owner repo (sha commit) = Throw e ->
  let degraded := Service.mkFileChanges [] [] [] (mkStats 0 0 0) in
  Service.fetchCommitDetails (Bot.api env) owner repo (sha commit) = Ok degraded /\
  exists embed,
    Formatter.createCommitEmbed (Bot.toLocaleString env)
      (Bot.fakePayload displayName (Bot.enhance commit degraded)) = Some embed /\
    nth_error (fields embed) 1 =
      Some {| field_name := Formatter.chart_emoji ++ lit " Changes";
              field_value := lit "No changes"; inline := true |} /\
    nth_error (fields embed) 2 =
      Some {| field_name := Formatter.wrench_emoji ++ lit " Files Modified";
              field_value := lit "No files changed"; inline := false |} /\
    Bot.notify_each env owner repo displayName channelId (commit :: rest) w =
      match Bot.send env channelId embed w with
      | (Ok _, w1) => Bot.notify_each env owner repo displayName channelId rest w1
      | (Throw err, w1) => (Throw err, w1)
      end.
Proof.
  intros Hfail degraded.
  assert (D : Service.fetchCommitDetails (Bot.api env) owner repo (sha commit) = Ok degraded).
  { unfold Service.fetchCommitDetails. now rewrite Hfail. }
  split; [exact D|].
  eexists. split; [reflexivity|]. split; [reflexivity|]. split; [reflexivity|].
  cbn [Bot.notify_each]. rewrite D. reflexivity.
Qed.

(** C5 at a source whose detail endpoint always fails: the newest commit is
    posted all the same, with the reduced detail. *)
Lemma C5_failed_details_still_posted :
  exists embed,
    Bot.notify_each Samples.env_c5 (lit "o") (lit "r") (lit "Berghain Bot")
                    Bot.CHANNEL_ID [Service.transformCommitData Samples.g5]
                    Samples.fresh_world =
      (Ok tt, Bot.mkWorld (Bot.fs Samples.fresh_world)
                [(Bot.CHANNEL_ID, [Bot.mkMessage Samples.BOT_ID [embed]])]) /\
    map field_value (fields embed) =
      [lit "`main`"; lit "No changes"; lit "No files changed"].
Proof.
  destruct (@C5_enrichment_failure_degrades
              Samples.env_c5 (lit "o") (lit "r") (lit "Berghain Bot") Bot.CHANNEL_ID
              (Service.transformCommitData Samples.g5) []
              (lit "Request failed with status code 500") Samples.fresh_world eq_refl)
    as [_ [embed [He [_ [_ Hn]]]]].
  exists embed. split.
  - rewrite Hn. reflexivity.
  - cbv in He. injection He as <-. reflexivity.
Defined.

(** ** Cursor store *)

Lemma or_else_present (s d : jsstr) : s <> [] -> or_else (Some s) d = s.
Proof. destruct s; [congruence | reflexivity]. Qed.

(** What a successful write leaves behind, as the two readers see it. *)
Lemma updateLastSeenCommit_then_read
      (now commitSha : jsstr) (meta : Tracker.MetadataArg) (fs : Tracker.FS) :
  Tracker.writable fs = true ->
  exists fs',
    Tracker.updateLastSeenCommit now commitSha meta fs = (Ok tt, fs') /\
    fst (Tracker.getLastSeenCommit fs') =
      (if truthy commitSha then Some commitSha else None) /\
    fst (Tracker.getTrackingInfo fs') =
      Tracker.mkTrackingInfo true (Some commitSha) (Some now)
        (Some {| Tracker.stored_author :=
                   or_else (Tracker.prop Tracker.meta_author meta) (lit "unknown");
                 Tracker.stored_message :=
                   or_else (Tracker.prop Tracker.meta_message meta) (lit "unknown");
                 Tracker.stored_timestamp :=
                   or_else (Tracker.prop Tracker.meta_timestamp meta) now |}).
Proof.
  intros Hw. destruct fs as [dir file wr]. simpl in Hw. subst wr.
  unfold Tracker.updateLastSeenCommit, Tracker.ensureDataDirectory, Tracker.writeFile.
  destruct dir; simpl; eexists; (split; [reflexivity|]);
    unfold Tracker.getLastSeenCommit, Tracker.getTrackingInfo; simpl;
    (split; [|reflexivity]); destruct commitSha; reflexivity.
Qed.

(** C9, as the code has it.  A write to a writable store succeeds.  Read
    back, a non-empty commit id is the id that was written, and an author,
    message and timestamp that are present and non-empty are those that were
    written.  A missing or empty author or message reads back as [unknown],
    a missing or empty timestamp as the time of the write. *)
Theorem C9_cursor_roundtrip
        (now commitSha : jsstr) (meta : Tracker.MetadataArg) (fs : Tracker.FS) :
  Tracker.writable fs = true ->
  exists fs',
    Tracker.updateLastSeenCommit now commitSha meta fs = (Ok tt, fs') /\
    (commitSha <> [] ->
     fst (Tracker.getLastSeenCommit fs') = Some commitSha /\
     Tracker.info_lastCommitSha (fst (Tracker.getTrackingInfo fs')) = Some commitSha) /\
    (forall a m t,
        meta = Tracker.MetaObject (Tracker.mkMetadata (Some a) (Some m) (Some t)) ->
        a <> [] -> m <> [] -> t <> [] ->
        Tracker.info_metadata (fst (Tracker.getTrackingInfo fs')) =
          Some (Tracker.mkStoredMetadata a m t)) /\
    Tracker.info_metadata (fst (Tracker.getTrackingInfo fs')) =
      Some {| Tracker.stored_author :=
                or_else (Tracker.prop Tracker.meta_author meta) (lit "unknown");
              Tracker.stored_message :=
                or_else (Tracker.prop Tracker.meta_message meta) (lit "unknown");
              Tracker.stored_timestamp :=
                or_else (Tracker.prop Tracker.meta_timestamp meta) now |}.
Proof.
  intros Hw.
  destruct (updateLastSeenCommit_then_read now commitSha meta fs Hw)
    as [fs' [Hupd [Hget Hinfo]]].
  exists fs'. split; [exact Hupd|]. split; [|split].
  - intros Hne. rewrite Hget, Hinfo. destruct commitSha; [congruence|]. now split.
  - intros a m t -> Ha Hm Ht. rewrite Hinfo.
    cbn [Tracker.info_metadata Tracker.prop Tracker.meta_author Tracker.meta_message
         Tracker.meta_timestamp].
    now rewrite !or_else_present.
  - now rewrite Hinfo.
Qed.

(** C9 at a full commit id with its author, message and date. *)
Lemma C9_roundtrip_full_record :
  exists fs',
    Tracker.updateLastSeenCommit Samples.NOW Samples.SHA40
      (Tracker.MetaObject
         (Tracker.mkMetadata (Some (lit "octocat")) (Some (lit "Fix the parser"))
                             (Some (lit "2025-09-02T10:00:00Z"))))
      Samples.empty_fs = (Ok tt, fs') /\
    fst (Tracker.getLastSeenCommit fs') = Some Samples.SHA40 /\
    Tracker.info_metadata (fst (Tracker.getTrackingInfo fs')) =
      Some (Tracker.mkStoredMetadata (lit "octocat") (lit "Fix the parser")
                                     (lit "2025-09-02T10:00:00Z")).
Proof.
  destruct (@C9_cursor_roundtrip Samples.NOW Samples.SHA40
              (Tracker.MetaObject
                 (Tracker.mkMetadata (Some (lit "octocat")) (Some (lit "Fix the parser"))
                                     (Some (lit "2025-09-02T10:00:00Z"))))
              Samples.empty_fs eq_refl) as [fs' [Hupd [Hid [Hmeta _]]]].
  exists fs'. split; [exact Hupd|]. split.
  - apply Hid. discriminate.
  - apply (Hmeta _ _ _ eq_refl); discriminate.
Defined.

(** The round trip as C9 words it fails at the metadata every caller in the
    repository passes, the empty object: the snapshot read back is
    [unknown], [unknown] and the time of the write; and at an empty commit
    id, which [getLastSeenCommit] reads back as no cursor. *)
Lemma C9_default_metadata_reads_back_unknown :
  (fst (Tracker.updateLastSeenCommit Samples.NOW Samples.SHA40
          (Tracker.MetaObject Tracker.no_metadata) Samples.empty_fs) = Ok tt /\
   Tracker.info_metadata
     (fst (Tracker.getTrackingInfo
             (snd (Tracker.updateLastSeenCommit Samples.NOW Samples.SHA40
                     (Tracker.MetaObject Tracker.no_metadata) Samples.empty_fs)))) =
     Some (Tracker.mkStoredMetadata (lit "unknown") (lit "unknown") Samples.NOW) /\
   option_map Tracker.snapshot_of
     (Tracker.info_metadata
        (fst (Tracker.getTrackingInfo
                (snd (Tracker.updateLastSeenCommit Samples.NOW Samples.SHA40
                        (Tracker.MetaObject Tracker.no_metadata) Samples.empty_fs))))) <>
     Some Tracker.no_metadata) /\
  (fst (Tracker.updateLastSeenCommit Samples.NOW []
          (Tracker.MetaObject Tracker.no_metadata) Samples.empty_fs) = Ok tt /\
   fst (Tracker.getLastSeenCommit
          (snd (Tracker.updateLastSeenCommit Samples.NOW []
                  (Tracker.MetaObject Tracker.no_metadata) Samples.empty_fs))) = None).
Proof.
  split; [split; [reflexivity | split; [reflexivity | discriminate]]|].
  split; reflexivity.
Qed.

(** ** The footer as a cursor *)

(** Cutting a footer at its separator gives back the text before it, when
    that text holds no bullet. *)
Lemma split_head_footer (short rest : jsstr) :
  ~ In bullet short ->
  split_head Formatter.footer_sep (short ++ Formatter.footer_sep ++ rest) = short.
Proof.
  induction short as [|x short IH]; intros Hnb.
  - reflexivity.
  - assert (Hx : x <> bullet) by (intros ->; apply Hnb; now left).
    assert (Hs : ~ In bullet short) by (intros H; apply Hnb; now right).
    change (split_head Formatter.footer_sep ((x :: short) ++ Formatter.footer_sep ++ rest))
      with (if startsWith Formatter.footer_sep
                 (x :: short ++ Formatter.footer_sep ++ rest)
            then []
            else x :: split_head Formatter.footer_sep
                       (short ++ Formatter.footer_sep ++ rest)).
    replace (startsWith Formatter.footer_sep (x :: short ++ Formatter.footer_sep ++ rest))
      with false.
    + now rewrite IH.
    + symmetry. unfold Formatter.footer_sep. cbn [startsWith].
      destruct (N.eqb 32 x); [|reflexivity]. cbn [andb].
      destruct short as [|y short]; [reflexivity|].
      cbn [app startsWith].
      assert (Hy : N.eqb bullet y = false).
      { apply N.eqb_neq. intros E. apply Hs. left. now symmetry. }
      now rewrite Hy.
Qed.

(** The footer of every embed is the first seven code units of the commit id,
    the separator and the date, and the cursor read from it is those seven
    code units. *)
Lemma footer_cursor_is_short_id
      (toLocaleString : jsstr -> jsstr) (displayName : jsstr) (commit : Commit) :
  ~ In bullet (substring0 7 (id commit)) ->
  exists embed,
    Formatter.createCommitEmbed toLocaleString (Bot.fakePayload displayName commit) =
      Some embed /\
    footer_text embed =
      Some (substring0 7 (id commit) ++ Formatter.footer_sep ++
            toLocaleString (timestamp commit)) /\
    split_head Formatter.footer_sep (or_empty (footer_text embed)) =
      substring0 7 (id commit).
Proof.
  intros Hnb. eexists. split; [reflexivity|]. split; [reflexivity|].
  cbn [footer_text or_empty]. now apply split_head_footer.
Qed.

Lemma eqb_length (a b : jsstr) : eqb a b = true -> length a = length b.
Proof. intros H. apply eqb_eq in H. now subst. Qed.

(** A cursor of at most seven code units is found in no window of full
    ids, so detection falls back to the newest commit. *)
Lemma short_cursor_not_found
      (api : Service.GithubApi) (owner repo : jsstr)
      (data : list Service.GithubCommit) (cursor : jsstr) :
  Service.get_commits api owner repo 20 = Ok data ->
  length cursor <= 7 ->
  (forall g, In g data -> 7 < length (Service.gh_sha g)) ->
  Service.checkForNewCommits api owner repo (Some cursor) =
    Ok (firstn 1 (map Service.transformCommitData data)).
Proof.
  intros Hget Hlen Hfull.
  rewrite checkForNewCommits_window with (data := data) by exact Hget.
  cbv zeta. destruct (truthy cursor); [|reflexivity].
  assert (F : findIndex (fun commit => eqb (sha commit) cursor)
                        (map Service.transformCommitData data) = None).
  { apply findIndex_None. intros k Hk. apply in_map_iff in Hk as [g [<- Hg]].
    destruct (eqb (sha (Service.transformCommitData g)) cursor) eqn:E; [|reflexivity].
    apply eqb_length in E. simpl in E. specialize (Hfull g Hg). lia. }
  now rewrite F.
Qed.

(** C2 on the code.  The commit [h1] has been posted; its footer starts with
    the seven code units [ec0b4f0], and these are what
    [getLastCommitFromChannel] returns.  [checkForNewCommits] compares this
    cursor with the full ids of the window [h3, h2, h1], finds none, and
    falls back to the newest commit [h3]; with the full id of [h1] as cursor
    it returns [h2, h3].  Two cycles of the multi-repository poller over the
    unchanged window post [h3] twice and never post [h2]. *)
Theorem C2_footer_cursor_misses_full_id :
  exists e1 e3,
    Bot.notification Samples.env_h (Bot.rc_owner Samples.berghain)
      (Bot.rc_repo Samples.berghain) (Bot.rc_displayName Samples.berghain)
      (Service.transformCommitData Samples.h1) = Some e1 /\
    Bot.notification Samples.env_h (Bot.rc_owner Samples.berghain)
      (Bot.rc_repo Samples.berghain) (Bot.rc_displayName Samples.berghain)
      (Service.transformCommitData Samples.h3) = Some e3 /\
    footer_text e1 =
      Some (lit "ec0b4f0" ++ Formatter.footer_sep ++ lit "2025-09-01T10:00:00Z") /\
    Bot.getLastCommitFromChannel Samples.env_h (Bot.rc_channelId Samples.berghain)
      (Samples.world_with [e1]) = Some (lit "ec0b4f0") /\
    Service.checkForNewCommits Samples.api_h (Bot.rc_owner Samples.berghain)
      (Bot.rc_repo Samples.berghain) (Some (lit "ec0b4f0")) =
      Ok [Service.transformCommitData Samples.h3] /\
    Service.checkForNewCommits Samples.api_h (Bot.rc_owner Samples.berghain)
      (Bot.rc_repo Samples.berghain)
      (Some (lit "ec0b4f0b5c90ed0fa911a2972ccc452641b31563")) =
      Ok [Service.transformCommitData Samples.h2;
          Service.transformCommitData Samples.h3] /\
    Bot.cache_get (Bot.rc_channelId Samples.berghain)
      (Bot.channels
         (Bot.pollForCommits_multi Samples.berghain Samples.env_h
            (Bot.pollForCommits_multi Samples.berghain Samples.env_h
               (Samples.world_with [e1])))) =
      Some [Bot.posted Samples.env_h e3; Bot.posted Samples.env_h e3;
            Bot.posted Samples.env_h e1].
Proof.
  eexists. eexists.
  split; [vm_compute; reflexivity|].
  split; [vm_compute; reflexivity|].
  repeat split; vm_compute; reflexivity.
Qed.

(** The multi-repository poller calls [updateLastSeenCommit] with the
    repository name where the commit id belongs: after a cycle that posted
    [h3], the stored [lastCommitSha] is [berghain-bot]. *)
Example multi_repo_cycle_stores_repository_name :
  Tracker.info_lastCommitSha
    (fst (Tracker.getTrackingInfo
            (Bot.fs (Bot.pollForCommits_multi Samples.berghain Samples.env_h
                       Samples.fresh_world)))) = Some (lit "berghain-bot").
Proof. vm_compute. reflexivity. Qed.

(** ** The poll cycle *)

Section Cycle.

Variable env : Bot.Env.
Variables owner repo displayName channelId : jsstr.

Lemma cache_get_push (m : Bot.Message) (cs : list (jsstr * list Bot.Message))
      (hist : list Bot.Message) :
  Bot.cache_get channelId cs = Some hist ->
  Bot.cache_get channelId (Bot.cache_push channelId m cs) = Some (m :: hist).
Proof.
  induction cs as [|[k msgs] cs IH]; simpl; [discriminate|].
  destruct (eqb k channelId) eqn:E; simpl; rewrite E.
  - intros H. now injection H as ->.
  - exact IH.
Qed.

(** Every commit gets an embed: the enricher does not throw, and a payload
    of one commit is never empty. *)
Lemma notification_total (commit : Commit) :
  exists embed, Bot.notification env owner repo displayName commit = Some embed.
Proof.
  unfold Bot.notification, Service.fetchCommitDetails.
  destruct (Service.get_commit (Bot.api env) owner repo (sha commit));
    simpl; eexists; reflexivity.
Qed.

Lemma notify_each_step (commit : Commit) (rest : list Commit) (w : Bot.World)
      (embed : Embed) :
  Bot.notification env owner repo displayName commit = Some embed ->
  Bot.notify_each env owner repo displayName channelId (commit :: rest) w =
    match Bot.send env channelId embed w with
    | (Ok _, w1) => Bot.notify_each env owner repo displayName channelId rest w1
    | (Throw e, w1) => (Throw e, w1)
    end.
Proof.
  unfold Bot.notification. cbn [Bot.notify_each].
  destruct (Service.fetchCommitDetails (Bot.api env) owner repo (sha commit));
    [|discriminate].
  intros ->. reflexivity.
Qed.

(** The loop never touches the tracker file. *)
Lemma notify_each_fs (newCommits : list Commit) :
  forall (w w' : Bot.World) (r : Exc unit),
    Bot.notify_each env owner repo displayName channelId newCommits w = (r, w') ->
    Bot.fs w' = Bot.fs w.
Proof.
  induction newCommits as [|commit rest IH]; intros w w' r H.
  - simpl in H. now injection H as _ <-.
  - destruct (notification_total commit) as [embed He].
    rewrite notify_each_step with (embed := embed) in H by exact He.
    unfold Bot.send in H.
    destruct (Bot.send_fails env embed).
    + now injection H as _ <-.
    + apply IH in H. exact H.
Qed.

(** A loop that ends normally has delivered one embed per commit, in the
    order of the list. *)
Lemma notify_each_delivers (newCommits : list Commit) :
  forall (w w' : Bot.World) (hist : list Bot.Message),
    Bot.notify_each env owner repo displayName channelId newCommits w = (Ok tt, w') ->
    Bot.cache_get channelId (Bot.channels w) = Some hist ->
    exists embeds,
      Forall2 (fun commit embed =>
                 Bot.notification env owner repo displayName commit = Some embed /\
                 Bot.send_fails env embed = false)
              newCommits embeds /\
      Bot.cache_get channelId (Bot.channels w') =
        Some (rev (map (Bot.posted env) embeds) ++ hist).
Proof.
  induction newCommits as [|commit rest IH]; intros w w' hist H Hhist.
  - simpl in H. injection H as <-. exists []. split; [constructor | exact Hhist].
  - destruct (notification_total commit) as [embed He].
    rewrite notify_each_step with (embed := embed) in H by exact He.
    unfold Bot.send in H.
    destruct (Bot.send_fails env embed) eqn:Hs; [discriminate|].
    apply IH with (hist := Bot.posted env embed :: hist) in H.
    + destruct H as [embeds [HF Hch]]. exists (embed :: embeds). split.
      * constructor; [now split | exact HF].
      * rewrite Hch. simpl. now rewrite <- app_assoc.
    + simpl. now apply cache_get_push.
Qed.

End Cycle.

Lemma getLastSeenCommit_keeps_file (fs : Tracker.FS) :
  Tracker.trackerFile (snd (Tracker.getLastSeenCommit fs)) = Tracker.trackerFile fs.
Proof.
  destruct fs as [dir [[|doc]|] wr]; destruct dir, wr; reflexivity.
Qed.

(** The cursor that is read is never the empty string. *)
Lemma getLastSeenCommit_truthy (fs : Tracker.FS) (c : jsstr) :
  fst (Tracker.getLastSeenCommit fs) = Some c -> truthy c = true.
Proof.
  destruct fs as [dir [[|[[s|] upd meta]]|] wr]; destruct dir, wr;
    try discriminate;
    cbn; destruct (truthy s) eqn:E; cbn; try discriminate;
    intros H; injection H as <-; exact E.
Qed.

(** [updateLastSeenCommit] leaves the file as it was or replaces it with the
    new record. *)
Lemma updateLastSeenCommit_file
      (now commitSha : jsstr) (meta : Tracker.MetadataArg) (fs : Tracker.FS) :
  let fs' := snd (Tracker.updateLastSeenCommit now commitSha meta fs) in
  Tracker.trackerFile fs' = Tracker.trackerFile fs \/
  (fst (Tracker.updateLastSeenCommit now commitSha meta fs) = Ok tt /\
   Tracker.trackerFile fs' =
     Some (Tracker.Json
             {| Tracker.lastCommitSha := Some commitSha;
                Tracker.lastUpdated := Some now;
                Tracker.metadata :=
                  Some {| Tracker.stored_author :=
                            or_else (Tracker.prop Tracker.meta_author meta) (lit "unknown");
                          Tracker.stored_message :=
                            or_else (Tracker.prop Tracker.meta_message meta) (lit "unknown");
                          Tracker.stored_timestamp :=
                            or_else (Tracker.prop Tracker.meta_timestamp meta) now |} |})).
Proof.
  unfold Tracker.updateLastSeenCommit, Tracker.ensureDataDirectory, Tracker.writeFile.
  destruct fs as [dir file wr]. destruct dir, wr; simpl; auto.
Qed.

(** When detection returns something, the window is not empty and the last
    commit returned is its newest; a cursor that occurs in the window is
    strictly older than that commit. *)
Lemma checkForNewCommits_nonempty
      (api : Service.GithubApi) (owner repo : jsstr) (cursor : option jsstr)
      (newCommits : list Commit) :
  Service.checkForNewCommits api owner repo cursor = Ok newCommits ->
  newCommits <> [] ->
  exists g rest pre,
    Service.get_commits api owner repo 20 = Ok (g :: rest) /\
    newCommits = pre ++ [Service.transformCommitData g] /\
    (forall c, cursor = Some c -> truthy c = true ->
               In c (map sha (map Service.transformCommitData (g :: rest))) ->
               Service.newer_in (map Service.transformCommitData (g :: rest))
                                (Service.gh_sha g) c = true).
Proof.
  intros HC Hne.
  destruct (Service.get_commits api owner repo 20) as [data|e] eqn:Hget.
  2:{ rewrite checkForNewCommits_query_failure with (e := e) in HC by exact Hget.
      injection HC as <-. congruence. }
  rewrite checkForNewCommits_window with (data := data) in HC by exact Hget.
  cbv zeta in HC.
  destruct data as [|g rest].
  { exfalso. apply Hne. simpl in HC.
    destruct cursor as [hash|]; [destruct (truthy hash)|]; now injection HC as <-. }
  exists g, rest.
  destruct cursor as [hash|].
  2:{ injection HC as <-. exists []. split; [reflexivity|]. split; [reflexivity|].
      discriminate. }
  destruct (truthy hash) eqn:Ht.
  2:{ injection HC as <-. exists []. split; [reflexivity|]. split; [reflexivity|].
      intros c Hc. injection Hc as <-. congruence. }
  destruct (findIndex (fun commit => eqb (sha commit) hash)
                      (map Service.transformCommitData (g :: rest))) as [i|] eqn:F.
  - injection HC as <-. destruct i as [|i]; [now elim Hne|].
    exists (rev (firstn i (map Service.transformCommitData rest))).
    split; [reflexivity|]. split; [reflexivity|].
    intros c Hc _ _. injection Hc as <-.
    unfold Service.newer_in. rewrite F.
    cbn [map findIndex Service.transformCommitData sha].
    now rewrite eqb_refl.
  - injection HC as <-. exists []. split; [reflexivity|]. split; [reflexivity|].
    intros c Hc _ Hin. injection Hc as <-.
    apply in_map_iff in Hin as [k [Hk Hin]].
    apply (proj1 (findIndex_None _ _) F) in Hin. simpl in Hin.
    apply eqb_neq in Hin. contradiction.
Qed.

(** C3, as the code has it, for the single-repository poller.  A cycle that
    changes the tracker file has fetched a non-empty window, has sent one
    embed for each commit that detection returned, the newest commit of the
    window last, and only then has stored the id of that newest commit.  If
    the cursor read at the start of the cycle occurs in the window, the
    stored id is strictly newer than it in the order of the window. *)
Theorem C3_single_repo_cursor_advance (env : Bot.Env) (w : Bot.World) :
  Tracker.trackerFile (Bot.fs (Bot.pollForCommits env w)) <>
    Tracker.trackerFile (Bot.fs w) ->
  exists g rest pre embeds hist,
    Service.get_commits (Bot.api env) Service.REPO_OWNER Service.REPO_NAME 20 =
      Ok (g :: rest) /\
    Service.checkForNewCommits (Bot.api env) Service.REPO_OWNER Service.REPO_NAME
      (fst (Tracker.getLastSeenCommit (Bot.fs w))) =
      Ok (pre ++ [Service.transformCommitData g]) /\
    Tracker.trackerFile (Bot.fs (Bot.pollForCommits env w)) =
      Some (Tracker.Json
              {| Tracker.lastCommitSha := Some (Service.gh_sha g);
                 Tracker.lastUpdated := Some (Bot.now env);
                 Tracker.metadata :=
                   Some (Tracker.mkStoredMetadata (lit "unknown") (lit "unknown")
                                                  (Bot.now env)) |}) /\
    Bot.cache_get Bot.CHANNEL_ID (Bot.channels w) = Some hist /\
    Forall2 (fun commit embed =>
               Bot.notification env Service.REPO_OWNER Service.REPO_NAME
                                (lit "berghain-bot") commit = Some embed /\
               Bot.send_fails env embed = false)
            (pre ++ [Service.transformCommitData g]) embeds /\
    Bot.cache_get Bot.CHANNEL_ID (Bot.channels (Bot.pollForCommits env w)) =
      Some (rev (map (Bot.posted env) embeds) ++ hist) /\
    (forall c, fst (Tracker.getLastSeenCommit (Bot.fs w)) = Some c ->
               In c (map sha (map Service.transformCommitData (g :: rest))) ->
               Service.newer_in (map Service.transformCommitData (g :: rest))
                                (Service.gh_sha g) c = true).
Proof.
  unfold Bot.pollForCommits, Bot.pollForCommits_try.
  pose proof (getLastSeenCommit_keeps_file (Bot.fs w)) as Hkeep.
  pose proof (getLastSeenCommit_truthy (Bot.fs w)) as Htruthy.
  destruct (Tracker.getLastSeenCommit (Bot.fs w)) as [lastSeen fs1].
  cbn [fst snd] in *.
  destruct (Service.checkForNewCommits (Bot.api env) Service.REPO_OWNER
              Service.REPO_NAME lastSeen) as [newCommits|e] eqn:HC;
    cbn [snd Bot.fs Bot.channels]; [|congruence].
  destruct (0 <? length newCommits) eqn:Hlen; cbn [snd Bot.fs]; [|congruence].
  destruct (Bot.cache_get Bot.CHANNEL_ID (Bot.channels w)) as [hist|] eqn:Hch;
    cbn [snd Bot.fs]; [|congruence].
  destruct (Bot.notify_each env Service.REPO_OWNER Service.REPO_NAME
              (lit "berghain-bot") Bot.CHANNEL_ID newCommits
              (Bot.mkWorld fs1 (Bot.channels w))) as [[[]|e] w2] eqn:HN.
  2:{ apply notify_each_fs in HN. cbn [snd]. rewrite HN. cbn [Bot.fs]. congruence. }
  assert (Hne : newCommits <> []).
  { intros ->. discriminate Hlen. }
  destruct (checkForNewCommits_nonempty _ _ _ _ HC Hne)
    as [g [rest [pre [Hget [-> Hnewer]]]]].
  pose proof (notify_each_fs _ _ _ _ _ _ _ HN) as Hfs2. cbn [Bot.fs] in Hfs2.
  destruct (@notify_each_delivers _ _ _ _ _ _ _ _ hist HN Hch) as [embeds [HF Hch2]].
  unfold Bot.last_sha. rewrite last_index_app.
  cbn [sha Service.transformCommitData].
  pose proof (updateLastSeenCommit_file (Bot.now env) (Service.gh_sha g)
                (Tracker.MetaObject Tracker.no_metadata) (Bot.fs w2)) as Hupd.
  cbv zeta in Hupd.
  destruct (Tracker.updateLastSeenCommit (Bot.now env) (Service.gh_sha g)
              (Tracker.MetaObject Tracker.no_metadata) (Bot.fs w2)) as [r fs3].
  cbn [fst snd Bot.fs Bot.channels] in *.
  intros Hchanged.
  destruct Hupd as [Hsame | [_ Hnew]].
  { exfalso. apply Hchanged. rewrite Hsame, Hfs2. exact Hkeep. }
  exists g, rest, pre, embeds, hist.
  split; [exact Hget|]. split; [first [reflexivity | exact HC]|].
  split; [exact Hnew|]. split; [first [reflexivity | exact Hch]|].
  split; [exact HF|]. split; [exact Hch2|].
  intros c Hc Hin. apply Hnewer; [exact Hc | now apply Htruthy | exact Hin].
Qed.

(** C3 at the window [c5, c4, c3, c2, c1] with the stored cursor [c3]. *)
Lemma C3_cycle_from_c3 :
  Tracker.trackerFile (Bot.fs (Bot.pollForCommits Samples.env_c5 Samples.world_at_c3)) <>
    Tracker.trackerFile (Bot.fs Samples.world_at_c3) /\
  exists g rest pre embeds hist,
    Service.get_commits (Bot.api Samples.env_c5) Service.REPO_OWNER
      Service.REPO_NAME 20 = Ok (g :: rest) /\
    Service.checkForNewCommits (Bot.api Samples.env_c5) Service.REPO_OWNER
      Service.REPO_NAME
      (fst (Tracker.getLastSeenCommit (Bot.fs Samples.world_at_c3))) =
      Ok (pre ++ [Service.transformCommitData g]) /\
    Tracker.trackerFile (Bot.fs (Bot.pollForCommits Samples.env_c5 Samples.world_at_c3)) =
      Some (Tracker.Json
              {| Tracker.lastCommitSha := Some (Service.gh_sha g);
                 Tracker.lastUpdated := Some (Bot.now Samples.env_c5);
                 Tracker.metadata :=
                   Some (Tracker.mkStoredMetadata (lit "unknown") (lit "unknown")
                                                  (Bot.now Samples.env_c5)) |}) /\
    Bot.cache_get Bot.CHANNEL_ID (Bot.channels Samples.world_at_c3) = Some hist /\
    Forall2 (fun commit embed =>
               Bot.notification Samples.env_c5 Service.REPO_OWNER Service.REPO_NAME
                                (lit "berghain-bot") commit = Some embed /\
               Bot.send_fails Samples.env_c5 embed = false)
            (pre ++ [Service.transformCommitData g]) embeds /\
    Bot.cache_get Bot.CHANNEL_ID
      (Bot.channels (Bot.pollForCommits Samples.env_c5 Samples.world_at_c3)) =
      Some (rev (map (Bot.posted Samples.env_c5) embeds) ++ hist) /\
    (forall c, fst (Tracker.getLastSeenCommit (Bot.fs Samples.world_at_c3)) = Some c ->
               In c (map sha (map Service.transformCommitData (g :: rest))) ->
               Service.newer_in (map Service.transformCommitData (g :: rest))
                                (Service.gh_sha g) c = true).
Proof.
  assert (H : Tracker.trackerFile
                (Bot.fs (Bot.pollForCommits Samples.env_c5 Samples.world_at_c3)) <>
              Tracker.trackerFile (Bot.fs Samples.world_at_c3)).
  { vm_compute. discriminate. }
  split; [exact H|].
  exact (C3_single_repo_cursor_advance Samples.env_c5 Samples.world_at_c3 H).
Defined.

(** The same cycle, evaluated: [c4] then [c5] are posted and the cursor
    becomes [c5]. *)
Example cycle_from_c3_posts_c4_then_c5 :
  fst (Tracker.getLastSeenCommit
         (Bot.fs (Bot.pollForCommits Samples.env_c5 Samples.world_at_c3))) =
    Some (lit "c5") /\
  option_map (map (fun m => map description (Bot.embeds m)))
    (Bot.cache_get Bot.CHANNEL_ID
       (Bot.channels (Bot.pollForCommits Samples.env_c5 Samples.world_at_c3))) =
    Some [[lit "fifth"]; [lit "fourth"]].
Proof. split; vm_compute; reflexivity. Qed.

(** C3 as it is worded fails when the history is rewritten.  The first cycle
    sees [c3, c2, c1] and stores [c3].  A forced push then takes [c3] away;
    the next cycle sees [c2, c1], does not find the cursor, posts [c2] and
    stores [c2], a commit strictly older than [c3]. *)
Lemma C3_rewound_history_moves_cursor_back :
  fst (Tracker.getLastSeenCommit
         (Bot.fs (Bot.pollForCommits Samples.env_c3 Samples.fresh_world))) =
    Some (lit "c3") /\
  fst (Tracker.getLastSeenCommit
         (Bot.fs (Bot.pollForCommits Samples.env_c3_rewound
                    (Bot.pollForCommits Samples.env_c3 Samples.fresh_world)))) =
    Some (lit "c2") /\
  Service.newer_in
    (map Service.transformCommitData [Samples.g3; Samples.g2; Samples.g1])
    (lit "c3") (lit "c2") = true /\
  Service.newer_in
    (map Service.transformCommitData [Samples.g2; Samples.g1])
    (lit "c2") (lit "c3") = false.
Proof. repeat split; vm_compute; reflexivity. Qed.

(* ------------------------------------------------------------------ *)
(** * Further properties of the code *)

(** ** Formatter *)

Lemma split_head_unit_id (c : code_unit) (s : jsstr) :
  ~ In c s -> split_head [c] s = s.
Proof.
  induction s as [|x s IH]; intros Hn; [reflexivity|].
  simpl. destruct (N.eqb c x) eqn:E.
  - apply N.eqb_eq in E. exfalso. apply Hn. now left.
  - simpl. f_equal. apply IH. intros H. apply Hn. now right.
Qed.

Lemma In_firstn {A : Type} (n : nat) (l : list A) (x : A) :
  In x (firstn n l) -> In x l.
Proof.
  revert l; induction n as [|n IH]; intros [|a l]; simpl; try tauto.
  intros [H|H]; [now left | right; now apply IH].
Qed.

Lemma formatCommitMessage_shape (message : jsstr) :
  length (Formatter.formatCommitMessage message) <= 100 /\
  ~ In newline (Formatter.formatCommitMessage message).
Proof.
  unfold Formatter.formatCommitMessage.
  destruct (split_head_unit_spec newline message) as [Hnl _].
  set (title := split_head [newline] message) in *.
  destruct (100 <? length title) eqn:E.
  - apply Nat.ltb_lt in E. split.
    + unfold substring0. rewrite length_app, length_firstn, lit_length_dots. lia.
    + intros H. apply in_app_or in H as [H|H].
      * apply Hnl. now apply In_firstn in H.
      * cbv in H. intuition discriminate.
  - apply Nat.ltb_ge in E. now split.
Qed.


(** X2. Formatting a description again leaves it as it is. *)
Theorem formatCommitMessage_idempotent (message : jsstr) :
  Formatter.formatCommitMessage (Formatter.formatCommitMessage message) =
  Formatter.formatCommitMessage message.
Proof.
  destruct (formatCommitMessage_shape message) as [Hlen Hnl].
  set (d := Formatter.formatCommitMessage message) in *.
  unfold Formatter.formatCommitMessage.
  rewrite (split_head_unit_id newline d Hnl).
  destruct (100 <? length d) eqn:E; [|reflexivity].
  apply Nat.ltb_lt in E. lia.
Qed.

(** X3. The totals of a list of commits put end to end are the sums of the
    totals of the two parts, the totals of no commit are zero, and [total]
    is always the sum of the three counts. *)
Theorem calculateTotalChanges_additive (xs ys : list Commit) :
  let t := Formatter.calculateTotalChanges in
  Formatter.total_added (t (xs ++ ys)) =
    Formatter.total_added (t xs) + Formatter.total_added (t ys) /\
  Formatter.total_removed (t (xs ++ ys)) =
    Formatter.total_removed (t xs) + Formatter.total_removed (t ys) /\
  Formatter.total_modified (t (xs ++ ys)) =
    Formatter.total_modified (t xs) + Formatter.total_modified (t ys) /\
  Formatter.total_all (t (xs ++ ys)) =
    Formatter.total_added (t (xs ++ ys)) + Formatter.total_removed (t (xs ++ ys)) +
    Formatter.total_modified (t (xs ++ ys)) /\
  t [] = Formatter.mkTotalStats 0 0 0 0.
Proof.
  intros t. subst t. rewrite !calculateTotalChanges_sums. cbv zeta.
  cbn [Formatter.total_added Formatter.total_removed Formatter.total_modified
       Formatter.total_all].
  rewrite !map_app, !list_sum_app. repeat split.
Qed.

(** X4. The change string is [No changes] exactly when the three counts are
    zero. *)
Theorem formatChangeStats_no_changes_iff (stats : Formatter.TotalStats) :
  Formatter.formatChangeStats stats = lit "No changes" <->
  Formatter.total_added stats = 0 /\ Formatter.total_removed stats = 0 /\
  Formatter.total_modified stats = 0.
Proof.
  destruct stats as [A R M T]. rewrite formatChangeStats_cases.
  cbn [Formatter.total_added Formatter.total_removed Formatter.total_modified].
  destruct A as [|A], R as [|R], M as [|M];
    (split; [intros H | intros (HA & HR & HM)]);
    try discriminate; try (repeat split; reflexivity);
    cbn in H; discriminate H.
Qed.

(** X5. The file list is [No files changed] exactly when the commit has no
    added, no modified and no removed path. *)
Theorem formatFileChanges_no_files_iff (commit : Commit) :
  Formatter.formatFileChanges commit = lit "No files changed" <->
  or_empty (added commit) = [] /\ or_empty (modified commit) = [] /\
  or_empty (removed commit) = [].
Proof.
  unfold Formatter.formatFileChanges, Formatter.all_files.
  destruct (or_empty (added commit)) as [|a la],
           (or_empty (modified commit)) as [|m lm],
           (or_empty (removed commit)) as [|r lr];
    cbn [map app length Nat.eqb];
    (split; [intros H | intros (HA & HM & HR)]);
    try discriminate; try (repeat split; reflexivity);
    match type of H with
    | (if ?b then _ else _) = _ => destruct b; cbv in H; discriminate H
    end.
Qed.

(** X6. For one commit, the counts that feed the change string are the
    lengths of its three path arrays, and their total is the number of
    entries of its file list. *)
Theorem single_commit_totals_match_file_list (commit : Commit) :
  let t := Formatter.calculateTotalChanges [commit] in
  Formatter.total_added t = length (or_empty (added commit)) /\
  Formatter.total_removed t = length (or_empty (removed commit)) /\
  Formatter.total_modified t = length (or_empty (modified commit)) /\
  Formatter.total_all t = length (Formatter.all_files commit).
Proof.
  unfold Formatter.calculateTotalChanges, Formatter.all_files.
  cbn [fold_left Formatter.total_added Formatter.total_removed
       Formatter.total_modified Formatter.total_all].
  rewrite !length_app, !length_map.
  destruct (added commit), (removed commit), (modified commit);
    cbn [length_or_0 or_empty length]; unfold jsstr, code_unit; lia.
Qed.

(** X7. Two commits get the same colour exactly when they agree on whether
    paths were added and on whether paths were removed; the modified paths
    and the numbers of paths play no part. *)
Theorem getCommitColor_presence_only (c1 c2 : Commit) :
  Formatter.getCommitColor c1 = Formatter.getCommitColor c2 <->
  Formatter.has_entries (added c1) = Formatter.has_entries (added c2) /\
  Formatter.has_entries (removed c1) = Formatter.has_entries (removed c2).
Proof.
  unfold Formatter.getCommitColor.
  destruct (Formatter.has_entries (added c1)), (Formatter.has_entries (removed c1)),
           (Formatter.has_entries (added c2)), (Formatter.has_entries (removed c2));
    cbn; split; try (intros [H1 H2]); try intros H; try discriminate;
    try reflexivity; now split.
Qed.

Lemma nonempty_ends {A : Type} (l : list A) :
  l <> [] -> exists pre x, l = pre ++ [x].
Proof.
  intros H. destruct (exists_last H) as [pre [x E]]. now exists pre, x.
Qed.

Lemma createCommitEmbed_nonempty
      (toLocaleString : jsstr -> jsstr) (payload : Payload) (cs : list Commit) :
  commits payload = Some cs -> cs <> [] ->
  exists embed, Formatter.createCommitEmbed toLocaleString payload = Some embed.
Proof.
  intros Hc Hne. destruct (nonempty_ends Hne) as [pre [c ->]].
  unfold Formatter.createCommitEmbed. rewrite Hc, last_index_app.
  destruct (length (pre ++ [c]) =? 0) eqn:E; [|eexists; reflexivity].
  apply Nat.eqb_eq in E. rewrite length_app in E. simpl in E. lia.
Qed.


(** X9. For a commit list that ends with [c], the fallback text names the
    author of [c], the repository, the description of [c] between double
    quotes and the url of [c]; the commits before [c] leave no trace. *)
Theorem createSimpleCommitMessage_last_commit_only
        (payload : Payload) (cs : list Commit) (c : Commit) :
  commits payload = Some (cs ++ [c]) ->
  Formatter.createSimpleCommitMessage payload =
    Ok (Formatter.hammer_emoji ++ lit " **" ++ author_name (author c) ++
        lit "** pushed to **" ++ repo_name (repository payload) ++ lit "**:" ++
        [newline] ++ [Formatter.double_quote] ++
        Formatter.formatCommitMessage (message c) ++
        [Formatter.double_quote] ++ [newline] ++ url c) /\
  (forall payload' cs',
      commits payload' = Some (cs' ++ [c]) ->
      repository payload' = repository payload ->
      Formatter.createSimpleCommitMessage payload' =
      Formatter.createSimpleCommitMessage payload).
Proof.
  intros Hc.
  assert (G : forall p l, commits p = Some (l ++ [c]) ->
              Formatter.createSimpleCommitMessage p =
              Ok (Formatter.hammer_emoji ++ lit " **" ++ author_name (author c) ++
                  lit "** pushed to **" ++ repo_name (repository p) ++ lit "**:" ++
                  [newline] ++ [Formatter.double_quote] ++
                  Formatter.formatCommitMessage (message c) ++
                  [Formatter.double_quote] ++ [newline] ++ url c)).
  { intros p l Hp. unfold Formatter.createSimpleCommitMessage.
    rewrite Hp, last_index_app.
    destruct (length (l ++ [c]) =? 0) eqn:E0; [|reflexivity].
    apply Nat.eqb_eq in E0. rewrite length_app in E0. simpl in E0. lia. }
  split; [now apply G with (l := cs)|].
  intros payload' cs' Hc' Hrepo.
  rewrite (G payload' cs' Hc'), (G payload cs Hc), Hrepo. reflexivity.
Qed.

(** X9 at a push of two commits. *)
Lemma createSimpleCommitMessage_push_of_two :
  Formatter.createSimpleCommitMessage Samples.push_of_two =
    Ok (Formatter.hammer_emoji ++ lit " **octocat** pushed to **r**:" ++ [newline] ++
        [Formatter.double_quote] ++ lit "Fix the parser" ++ [Formatter.double_quote] ++
        [newline] ++ lit "https://example.com/c2").
Proof.
  destruct (@createSimpleCommitMessage_last_commit_only Samples.push_of_two
              [Samples.twelve_files] Samples.small_change eq_refl) as [H _].
  rewrite H. reflexivity.
Defined.

(** X10. The branch field shows what follows [refs/heads/] in the ref,
    between backquotes; with no ref, or an empty one, it shows [unknown]. *)
Theorem branch_field_strips_heads_prefix
        (toLocaleString : jsstr -> jsstr) (payload : Payload) (embed : Embed) :
  Formatter.createCommitEmbed toLocaleString payload = Some embed ->
  (forall b, ref payload = Some (lit "refs/heads/" ++ b) ->
             option_map field_value (nth_error (fields embed) 0) =
               Some (lit "`" ++ b ++ lit "`")) /\
  (truthy_opt (ref payload) = false ->
   option_map field_value (nth_error (fields embed) 0) = Some (lit "`unknown`")).
Proof.
  unfold Formatter.createCommitEmbed.
  destruct (commits payload) as [cs|]; [|discriminate].
  destruct (length cs =? 0); [discriminate|].
  destruct (nth_error cs (length cs - 1)) as [c|]; [|discriminate].
  intros H. injection H as <-. cbn [fields nth_error option_map field_value]. split.
  - intros b ->. reflexivity.
  - intros ->. reflexivity.
Qed.

(** X10 at the ref [refs/heads/main]. *)
Lemma branch_field_push_of_two :
  exists embed,
    Formatter.createCommitEmbed Samples.iso_locale Samples.push_of_two = Some embed /\
    option_map field_value (nth_error (fields embed) 0) = Some (lit "`main`").
Proof.
  destruct (createCommitEmbed_nonempty Samples.iso_locale Samples.push_of_two
              (cs := [Samples.twelve_files; Samples.small_change]) eq_refl)
    as [embed He]; [discriminate|].
  exists embed. split; [exact He|].
  destruct (@branch_field_strips_heads_prefix Samples.iso_locale Samples.push_of_two
              embed He) as [H _].
  exact (H (lit "main") eq_refl).
Defined.

(** ** The webhook handler *)


(** ** Cursor store: failures, reads and resets *)

(** X12. A tracker file that is missing or cannot be parsed reads as no
    cursor: [getLastSeenCommit] returns [null], [getTrackingInfo] reports no
    tracking, and every commit id counts as new. *)
Theorem unreadable_tracker_is_no_cursor (fs : Tracker.FS) (commitSha : jsstr) :
  Tracker.trackerFile fs = None \/ Tracker.trackerFile fs = Some Tracker.Unparseable ->
  fst (Tracker.getLastSeenCommit fs) = None /\
  fst (Tracker.getTrackingInfo fs) = Tracker.mkTrackingInfo false None None None /\
  fst (Tracker.isNewCommit commitSha fs) = true.
Proof.
  destruct fs as [dir file wr]. cbn [Tracker.trackerFile].
  intros [->| ->]; destruct dir, wr; repeat split.
Qed.

(** X12 at a store with no file. *)
Lemma unreadable_tracker_empty_store :
  fst (Tracker.getLastSeenCommit Samples.empty_fs) = None /\
  fst (Tracker.getTrackingInfo Samples.empty_fs) =
    Tracker.mkTrackingInfo false None None None /\
  fst (Tracker.isNewCommit Samples.SHA40 Samples.empty_fs) = true.
Proof.
  exact (@unreadable_tracker_is_no_cursor Samples.empty_fs Samples.SHA40
           (or_introl eq_refl)).
Defined.

(** X13. On a store that cannot be written, [updateLastSeenCommit] throws
    and the tracker file stays as it was. *)
Theorem updateLastSeenCommit_unwritable
        (now commitSha : jsstr) (meta : Tracker.MetadataArg) (fs : Tracker.FS) :
  Tracker.writable fs = false ->
  (exists e, fst (Tracker.updateLastSeenCommit now commitSha meta fs) = Throw e) /\
  snd (Tracker.updateLastSeenCommit now commitSha meta fs) = fs.
Proof.
  destruct fs as [dir file wr]. cbn [Tracker.writable]. intros ->.
  destruct dir; cbn; split; try reflexivity; eexists; reflexivity.
Qed.

(** X13 at a read-only store that holds [c3]: the cursor read afterwards is
    still [c3]. *)
Lemma updateLastSeenCommit_readonly_store :
  (exists e, fst (Tracker.updateLastSeenCommit Samples.NOW Samples.SHA40
                    (Tracker.MetaObject Tracker.no_metadata) Samples.readonly_fs) =
             Throw e) /\
  snd (Tracker.updateLastSeenCommit Samples.NOW Samples.SHA40
         (Tracker.MetaObject Tracker.no_metadata) Samples.readonly_fs) =
    Samples.readonly_fs.
Proof.
  exact (@updateLastSeenCommit_unwritable Samples.NOW Samples.SHA40
           (Tracker.MetaObject Tracker.no_metadata) Samples.readonly_fs eq_refl).
Defined.

(** X14. After a successful write of a non-empty id, that id is no longer
    new and every other id is. *)
Theorem isNewCommit_after_update
        (now commitSha other : jsstr) (meta : Tracker.MetadataArg) (fs : Tracker.FS) :
  Tracker.writable fs = true ->
  commitSha <> [] ->
  fst (Tracker.isNewCommit commitSha
         (snd (Tracker.updateLastSeenCommit now commitSha meta fs))) = false /\
  (fst (Tracker.isNewCommit other
          (snd (Tracker.updateLastSeenCommit now commitSha meta fs))) = true <->
   other <> commitSha).
Proof.
  intros Hw Hne.
  destruct (updateLastSeenCommit_then_read now commitSha meta fs Hw)
    as [fs' [Hupd [Hget _]]].
  rewrite Hupd. cbn [snd].
  assert (G : forall x, fst (Tracker.isNewCommit x fs') = negb (eqb x commitSha)).
  { intros x. unfold Tracker.isNewCommit.
    destruct (Tracker.getLastSeenCommit fs') as [lastSeen fs1]. cbn [fst] in Hget.
    subst lastSeen. destruct commitSha as [|u s]; [congruence|]. reflexivity. }
  rewrite !G. split.
  - now rewrite eqb_refl.
  - rewrite negb_true_iff. apply eqb_neq.
Qed.

(** X14 at an empty store. *)
Lemma isNewCommit_after_update_empty_store :
  fst (Tracker.isNewCommit Samples.SHA40
         (snd (Tracker.updateLastSeenCommit Samples.NOW Samples.SHA40
                 (Tracker.MetaObject Tracker.no_metadata) Samples.empty_fs))) = false /\
  (fst (Tracker.isNewCommit (lit "c1")
          (snd (Tracker.updateLastSeenCommit Samples.NOW Samples.SHA40
                  (Tracker.MetaObject Tracker.no_metadata) Samples.empty_fs))) = true <->
   lit "c1" <> Samples.SHA40).
Proof.
  refine (@isNewCommit_after_update Samples.NOW Samples.SHA40 (lit "c1")
            (Tracker.MetaObject Tracker.no_metadata) Samples.empty_fs eq_refl _).
  discriminate.
Defined.

(** X15. On a writable store, [resetTracking] removes the tracker file: what
    is read afterwards is no cursor and no tracking, and the directory is
    left alone. *)
Theorem resetTracking_clears_cursor (fs : Tracker.FS) :
  Tracker.writable fs = true ->
  Tracker.trackerFile (Tracker.resetTracking fs) = None /\
  Tracker.dataDir (Tracker.resetTracking fs) = Tracker.dataDir fs /\
  fst (Tracker.getLastSeenCommit (Tracker.resetTracking fs)) = None /\
  Tracker.hasTracking (fst (Tracker.getTrackingInfo (Tracker.resetTracking fs))) = false /\
  Tracker.resetTracking (Tracker.resetTracking fs) = Tracker.resetTracking fs.
Proof.
  destruct fs as [dir [c|] wr]; cbn [Tracker.writable]; intros ->;
    destruct dir; repeat split.
Qed.

(** X15 at a store that holds the cursor [c3]. *)
Lemma resetTracking_store_at_c3 :
  Tracker.trackerFile (Tracker.resetTracking (Bot.fs Samples.world_at_c3)) = None /\
  Tracker.dataDir (Tracker.resetTracking (Bot.fs Samples.world_at_c3)) =
    Tracker.dataDir (Bot.fs Samples.world_at_c3) /\
  fst (Tracker.getLastSeenCommit (Tracker.resetTracking (Bot.fs Samples.world_at_c3))) =
    None /\
  Tracker.hasTracking
    (fst (Tracker.getTrackingInfo (Tracker.resetTracking (Bot.fs Samples.world_at_c3)))) =
    false /\
  Tracker.resetTracking (Tracker.resetTracking (Bot.fs Samples.world_at_c3)) =
    Tracker.resetTracking (Bot.fs Samples.world_at_c3).
Proof.
  exact (@resetTracking_clears_cursor (Bot.fs Samples.world_at_c3) eq_refl).
Defined.

(** X16. The three readers change nothing but the data directory, which
    they create when it is missing and can be created; a second read gives
    what the first gave. *)
Theorem reads_only_create_the_directory (fs : Tracker.FS) (commitSha : jsstr) :
  snd (Tracker.getLastSeenCommit fs) = snd (Tracker.ensureDataDirectory fs) /\
  snd (Tracker.getTrackingInfo fs) = snd (Tracker.ensureDataDirectory fs) /\
  snd (Tracker.isNewCommit commitSha fs) = snd (Tracker.ensureDataDirectory fs) /\
  Tracker.trackerFile (snd (Tracker.ensureDataDirectory fs)) = Tracker.trackerFile fs /\
  Tracker.writable (snd (Tracker.ensureDataDirectory fs)) = Tracker.writable fs /\
  Tracker.getLastSeenCommit (snd (Tracker.getLastSeenCommit fs)) =
    (fst (Tracker.getLastSeenCommit fs), snd (Tracker.getLastSeenCommit fs)).
Proof.
  destruct fs as [dir [[|[[[|u s]|] upd meta]]|] wr]; destruct dir, wr;
    repeat split; try reflexivity;
    unfold Tracker.isNewCommit; cbn -[eqb]; destruct (eqb commitSha (u :: s));
    reflexivity.
Qed.

(** X17. The cursor that [getLastSeenCommit] returns is the [lastCommitSha]
    that [getTrackingInfo] reports, with an empty or missing one read as no
    cursor. *)
Theorem getLastSeenCommit_agrees_with_tracking_info (fs : Tracker.FS) :
  fst (Tracker.getLastSeenCommit fs) =
    (if truthy_opt (Tracker.info_lastCommitSha (fst (Tracker.getTrackingInfo fs)))
     then Tracker.info_lastCommitSha (fst (Tracker.getTrackingInfo fs))
     else None) /\
  (Tracker.hasTracking (fst (Tracker.getTrackingInfo fs)) = false ->
   fst (Tracker.getLastSeenCommit fs) = None).
Proof.
  destruct fs as [dir [[|[[[|u s]|] upd meta]]|] wr]; destruct dir, wr;
    split; try reflexivity; try discriminate.
Qed.

(** ** Source queries *)

(** X18. [fetchLatestCommits] keeps the answer of the source as it came:
    as many commits, in the same order, each with [id] and [sha] equal to
    the listed sha, empty change sets and zero stats; a failed request is
    thrown on to the caller with its message. *)
Theorem fetchLatestCommits_keeps_the_listing
        (api : Service.GithubApi) (owner repo : jsstr) (limit : nat) :
  (forall data,
      Service.get_commits api owner repo limit = Ok data ->
      exists cs,
        Service.fetchLatestCommits api owner repo limit = Ok cs /\
        length cs = length data /\
        map sha cs = map Service.gh_sha data /\
        Forall (fun c => id c = sha c /\ added c = Some [] /\ modified c = Some [] /\
                         removed c = Some [] /\ stats c = Some (mkStats 0 0 0)) cs) /\
  (forall e,
      Service.get_commits api owner repo limit = Throw e ->
      Service.fetchLatestCommits api owner repo limit = Throw e).
Proof.
  unfold Service.fetchLatestCommits. split.
  - intros data ->. cbn. eexists. split; [reflexivity|].
    split; [apply length_map|]. split.
    + rewrite map_map. reflexivity.
    + apply Forall_forall. intros c Hc. apply in_map_iff in Hc as [g [<- _]].
      repeat split.
  - intros e ->. reflexivity.
Qed.

(** X19. [checkForNewCommits] never throws, and when the request for the
    commit list fails it reports no new commit. *)
Theorem checkForNewCommits_contains_failures
        (api : Service.GithubApi) (owner repo : jsstr) (cursor : option jsstr) :
  (exists newCommits, Service.checkForNewCommits api owner repo cursor = Ok newCommits) /\
  (forall e,
      Service.get_commits api owner repo 20 = Throw e ->
      Service.checkForNewCommits api owner repo cursor = Ok []).
Proof.
  split.
  - apply checkForNewCommits_never_throws.
  - intros e He. now apply checkForNewCommits_query_failure with (e := e).
Qed.

Lemma In_firstn_index {A : Type} (n : nat) (l : list A) (x : A) :
  In x (firstn n l) -> exists j, j < n /\ nth_error l j = Some x.
Proof.
  revert l; induction n as [|n IH]; intros [|a l]; simpl; try tauto.
  intros [->|H].
  - exists 0. split; [lia | reflexivity].
  - destruct (IH l H) as [j [Hj Hn]]. exists (S j). split; [lia | exact Hn].
Qed.

(** X20. With a non-empty cursor, no commit that detection returns has the
    cursor as its id: the commit at the cursor is not reported again. *)
Theorem checkForNewCommits_never_returns_cursor
        (api : Service.GithubApi) (owner repo cursor : jsstr)
        (newCommits : list Commit) :
  cursor <> [] ->
  Service.checkForNewCommits api owner repo (Some cursor) = Ok newCommits ->
  forall k, In k newCommits -> sha k <> cursor.
Proof.
  intros Hne HC k Hk.
  destruct (Service.get_commits api owner repo 20) as [data|e] eqn:Hget.
  2:{ rewrite checkForNewCommits_query_failure with (e := e) in HC by exact Hget.
      injection HC as <-. contradiction. }
  rewrite checkForNewCommits_window with (data := data) in HC by exact Hget.
  cbv zeta in HC. destruct cursor as [|u c]; [congruence|]. cbn [truthy] in HC.
  apply eqb_neq.
  destruct (findIndex (fun commit => eqb (sha commit) (u :: c))
                      (map Service.transformCommitData data)) as [i|] eqn:F;
    injection HC as <-.
  - apply in_rev in Hk. apply In_firstn_index in Hk as [j [Hj Hn]].
    apply (proj2 (proj1 (findIndex_Some _ _ _) F) j k Hj Hn).
  - destruct (map Service.transformCommitData data) as [|a l]; [contradiction|].
    destruct Hk as [<-|[]]. apply (proj1 (findIndex_None _ _) F). now left.
Qed.

(** X20 at the window [c5 .. c1] with the cursor [c3]. *)
Lemma checkForNewCommits_never_returns_c3 :
  Forall (fun k => sha k <> lit "c3")
         [Service.transformCommitData Samples.g4; Service.transformCommitData Samples.g5].
Proof.
  apply Forall_forall.
  refine (@checkForNewCommits_never_returns_cursor Samples.api_c5 (lit "o") (lit "r")
            (lit "c3") _ _ eq_refl).
  discriminate.
Defined.

Lemma detection_at_newest
      (api : Service.GithubApi) (owner repo : jsstr)
      (g : Service.GithubCommit) (rest : list Service.GithubCommit) :
  Service.get_commits api owner repo 20 = Ok (g :: rest) ->
  Service.gh_sha g <> [] ->
  Service.checkForNewCommits api owner repo (Some (Service.gh_sha g)) = Ok [].
Proof.
  intros Hget Hne.
  rewrite checkForNewCommits_window with (data := g :: rest) by exact Hget.
  cbv zeta. destruct (Service.gh_sha g) as [|u s] eqn:E; [congruence|].
  cbn [truthy map findIndex Service.transformCommitData sha].
  rewrite E, eqb_refl. reflexivity.
Qed.

(** X21. When the cursor is the id of the newest commit of the window,
    detection returns no commit. *)
Theorem checkForNewCommits_up_to_date
        (api : Service.GithubApi) (owner repo : jsstr)
        (g : Service.GithubCommit) (rest : list Service.GithubCommit) :
  Service.get_commits api owner repo 20 = Ok (g :: rest) ->
  Service.gh_sha g <> [] ->
  Service.checkForNewCommits api owner repo (Some (Service.gh_sha g)) = Ok [].
Proof.
  intros Hget Hne. now apply detection_at_newest with (rest := rest).
Qed.

(** X21 at the window [c5 .. c1] with the cursor [c5]. *)
Lemma checkForNewCommits_up_to_date_c5 :
  Service.checkForNewCommits Samples.api_c5 (lit "o") (lit "r") (Some (lit "c5")) = Ok [].
Proof.
  refine (@checkForNewCommits_up_to_date Samples.api_c5 (lit "o") (lit "r")
            Samples.g5 [Samples.g4; Samples.g3; Samples.g2; Samples.g1] eq_refl _).
  discriminate.
Defined.

(** X22. Whatever the cursor, every commit that detection returns is a
    commit of the fetched window, and there are no more of them than the
    window holds. *)
Theorem checkForNewCommits_within_window
        (api : Service.GithubApi) (owner repo : jsstr) (cursor : option jsstr)
        (data : list Service.GithubCommit) (newCommits : list Commit) :
  Service.get_commits api owner repo 20 = Ok data ->
  Service.checkForNewCommits api owner repo cursor = Ok newCommits ->
  incl newCommits (map Service.transformCommitData data) /\
  length newCommits <= length data.
Proof.
  intros Hget HC.
  rewrite checkForNewCommits_window with (data := data) in HC by exact Hget.
  cbv zeta in HC.
  assert (G : forall n, incl (firstn n (map Service.transformCommitData data))
                             (map Service.transformCommitData data) /\
                        length (firstn n (map Service.transformCommitData data)) <=
                        length data).
  { intros n. split.
    - intros x Hx. now apply In_firstn in Hx.
    - rewrite length_firstn, length_map. lia. }
  assert (R : forall i, incl (rev (firstn i (map Service.transformCommitData data)))
                             (map Service.transformCommitData data) /\
                        length (rev (firstn i (map Service.transformCommitData data))) <=
                        length data).
  { intros i. destruct (G i) as [Hi Hl]. split.
    - intros x Hx. apply in_rev in Hx. now apply Hi.
    - now rewrite length_rev. }
  destruct cursor as [hash|].
  - destruct (truthy hash).
    + destruct (findIndex _ _) as [i|]; injection HC as <-; [apply R | apply (G 1)].
    + injection HC as <-. apply (G 1).
  - injection HC as <-. apply (G 1).
Qed.

(** X22 at the window [c5 .. c1] with the cursor [c3]. *)
Lemma checkForNewCommits_within_window_c5 :
  incl [Service.transformCommitData Samples.g4; Service.transformCommitData Samples.g5]
       (map Service.transformCommitData
            [Samples.g5; Samples.g4; Samples.g3; Samples.g2; Samples.g1]) /\
  length [Service.transformCommitData Samples.g4; Service.transformCommitData Samples.g5]
    <= length [Samples.g5; Samples.g4; Samples.g3; Samples.g2; Samples.g1].
Proof.
  exact (@checkForNewCommits_within_window Samples.api_c5 (lit "o") (lit "r")
           (Some (lit "c3")) [Samples.g5; Samples.g4; Samples.g3; Samples.g2; Samples.g1]
           [Service.transformCommitData Samples.g4; Service.transformCommitData Samples.g5]
           eq_refl eq_refl).
Defined.

Lemma with_status_In (st : jsstr) (fl : list Service.FileEntry) (p : jsstr) :
  In p (Service.with_status st fl) <->
  exists f, In f fl /\ Service.status f = st /\ Service.filename f = p.
Proof.
  unfold Service.with_status. rewrite in_map_iff. split.
  - intros [f [Hp Hf]]. apply filter_In in Hf as [Hin Hs]. apply eqb_eq in Hs.
    now exists f.
  - intros [f [Hin [Hs Hp]]]. exists f. split; [exact Hp|].
    apply filter_In. split; [exact Hin | now apply eqb_eq].
Qed.

Lemma with_status_count (sa sm sr : jsstr) (fl : list Service.FileEntry) :
  sa <> sm -> sa <> sr -> sm <> sr ->
  length (Service.with_status sa fl) + length (Service.with_status sm fl) +
  length (Service.with_status sr fl) =
  length (filter (fun f => eqb (Service.status f) sa || eqb (Service.status f) sm ||
                           eqb (Service.status f) sr) fl).
Proof.
  intros Ham Har Hmr. unfold Service.with_status.
  induction fl as [|f fl IH]; [reflexivity|].
  cbn [filter].
  destruct (eqb (Service.status f) sa) eqn:Ea,
           (eqb (Service.status f) sm) eqn:Em,
           (eqb (Service.status f) sr) eqn:Er;
    try apply eqb_eq in Ea; try apply eqb_eq in Em; try apply eqb_eq in Er;
    try congruence; cbn [orb map length]; lia.
Qed.

(** X23. [fetchCommitDetails] never throws.  When the request succeeds, the
    three change sets hold the file names whose status is [added],
    [modified] and [removed]; a file with any other status is counted in
    none of them; a missing file list gives three empty sets and a missing
    stats object or number gives zero. *)
Theorem fetchCommitDetails_sorts_by_status
        (api : Service.GithubApi) (owner repo commitSha : jsstr) :
  exists d,
    Service.fetchCommitDetails api owner repo commitSha = Ok d /\
    forall resp,
      Service.get_commit api owner repo commitSha = Ok resp ->
      (forall p, In p (Service.fc_added d) <->
                 exists f, In f (or_empty (Service.files resp)) /\
                           Service.status f = lit "added" /\ Service.filename f = p) /\
      (forall p, In p (Service.fc_modified d) <->
                 exists f, In f (or_empty (Service.files resp)) /\
                           Service.status f = lit "modified" /\ Service.filename f = p) /\
      (forall p, In p (Service.fc_removed d) <->
                 exists f, In f (or_empty (Service.files resp)) /\
                           Service.status f = lit "removed" /\ Service.filename f = p) /\
      length (Service.fc_added d) + length (Service.fc_modified d) +
      length (Service.fc_removed d) =
        length (filter (fun f => eqb (Service.status f) (lit "added") ||
                                 eqb (Service.status f) (lit "modified") ||
                                 eqb (Service.status f) (lit "removed"))
                       (or_empty (Service.files resp))) /\
      (Service.files resp = None ->
       Service.fc_added d = [] /\ Service.fc_modified d = [] /\
       Service.fc_removed d = []) /\
      (Service.resp_stats resp = None -> Service.fc_stats d = mkStats 0 0 0).
Proof.
  unfold Service.fetchCommitDetails.
  destruct (Service.get_commit api owner repo commitSha) as [resp0|e].
  2:{ eexists. split; [reflexivity|]. discriminate. }
  eexists. split; [reflexivity|]. intros resp H. injection H as <-.
  cbn [Service.fc_added Service.fc_modified Service.fc_removed Service.fc_stats].
  split; [intros p; apply with_status_In|].
  split; [intros p; apply with_status_In|].
  split; [intros p; apply with_status_In|].
  split; [apply with_status_count; discriminate|].
  split.
  - intros ->. repeat split.
  - intros ->. reflexivity.
Qed.

(** ** The channel as a cursor source *)

Lemma scan_messages_skips (me : jsstr) (ms : list Bot.Message) :
  Forall (fun m => Bot.msg_author_id m <> me \/ Bot.embeds m = [] \/
                   exists e rest, Bot.embeds m = e :: rest /\
                                  truthy_opt (footer_text e) = false) ms ->
  Bot.scan_messages me ms = None.
Proof.
  induction 1 as [|m ms Hm _ IH]; [reflexivity|].
  cbn [Bot.scan_messages].
  destruct Hm as [Ha | [He | [e [rest [He Hf]]]]].
  - apply eqb_neq in Ha. rewrite Ha. exact IH.
  - rewrite He. cbn. rewrite andb_false_r. exact IH.
  - rewrite He, Hf. destruct (_ && _); exact IH.
Qed.

(** X24. [getLastCommitFromChannel] returns [null] when the channel is not
    cached, when reading its history fails, and when none of the ten newest
    messages is a message of the bot whose first embed has a footer text,
    whatever older messages the channel holds. *)
Theorem getLastCommitFromChannel_null_cases
        (env : Bot.Env) (channelId : jsstr) (w : Bot.World) :
  (Bot.cache_get channelId (Bot.channels w) = None ->
   Bot.getLastCommitFromChannel env channelId w = None) /\
  (Bot.history_fails env = true ->
   Bot.getLastCommitFromChannel env channelId w = None) /\
  (forall history,
      Bot.cache_get channelId (Bot.channels w) = Some history ->
      Forall (fun m => Bot.msg_author_id m <> Bot.client_user_id env \/
                       Bot.embeds m = [] \/
                       exists e rest, Bot.embeds m = e :: rest /\
                                      truthy_opt (footer_text e) = false)
             (firstn 10 history) ->
      Bot.getLastCommitFromChannel env channelId w = None).
Proof.
  unfold Bot.getLastCommitFromChannel. split; [|split].
  - intros ->. reflexivity.
  - intros ->. now destruct (Bot.cache_get channelId (Bot.channels w)).
  - intros history -> HF. destruct (Bot.history_fails env); [reflexivity|].
    now apply scan_messages_skips.
Qed.

(** X25. After the bot has posted an embed whose footer is some text
    without a bullet, the separator and a rest, reading the cursor from
    that channel gives that text; for a commit embed it is the first seven
    code units of the commit id. *)
Theorem getLastCommitFromChannel_after_send
        (env : Bot.Env) (channelId : jsstr) (embed : Embed) (w : Bot.World)
        (short rest : jsstr) :
  Bot.cache_get channelId (Bot.channels w) <> None ->
  Bot.send_fails env embed = false ->
  Bot.history_fails env = false ->
  footer_text embed = Some (short ++ Formatter.footer_sep ++ rest) ->
  ~ In bullet short ->
  Bot.getLastCommitFromChannel env channelId (snd (Bot.send env channelId embed w)) =
    Some short.
Proof.
  intros Hch Hs Hh Hf Hnb.
  destruct (Bot.cache_get channelId (Bot.channels w)) as [hist|] eqn:Hc; [|congruence].
  unfold Bot.send. rewrite Hs. cbn [snd].
  unfold Bot.getLastCommitFromChannel. cbn [Bot.channels].
  rewrite cache_get_push with (hist := hist) by exact Hc.
  rewrite Hh. cbn [firstn Bot.scan_messages Bot.msg_author_id Bot.embeds].
  rewrite eqb_refl. cbn [length Nat.ltb Nat.leb andb].
  rewrite Hf.
  assert (Ht : truthy_opt (Some (short ++ Formatter.footer_sep ++ rest)) = true).
  { destruct short; reflexivity. }
  rewrite Ht. cbn [or_empty]. now rewrite split_head_footer.
Qed.

(** X25 at the embed of a commit with a full id. *)
Lemma getLastCommitFromChannel_after_send_h3 :
  exists embed,
    Samples.embed_h3 = Some embed /\
    Bot.getLastCommitFromChannel Samples.env_h Bot.CHANNEL_ID
      (snd (Bot.send Samples.env_h Bot.CHANNEL_ID embed Samples.fresh_world)) =
      Some (lit "59395c0").
Proof.
  eexists. split; [vm_compute; reflexivity|].
  apply (@getLastCommitFromChannel_after_send Samples.env_h Bot.CHANNEL_ID _
           Samples.fresh_world (lit "59395c0") (lit "2025-09-03T10:00:00Z")).
  - discriminate.
  - reflexivity.
  - reflexivity.
  - reflexivity.
  - cbv. intuition discriminate.
Defined.

(** ** The poll cycle: failures, steady state, the channel *)

Section CycleEffects.

Variable env : Bot.Env.
Variables owner repo displayName channelId : jsstr.

Lemma cache_get_push_other (other : jsstr) (m : Bot.Message)
      (cs : list (jsstr * list Bot.Message)) :
  other <> channelId ->
  Bot.cache_get other (Bot.cache_push channelId m cs) = Bot.cache_get other cs.
Proof.
  intros Hne. induction cs as [|[k msgs] cs IH]; [reflexivity|].
  cbn [Bot.cache_push]. destruct (eqb k channelId) eqn:E; cbn [Bot.cache_get].
  - apply eqb_eq in E. subst k.
    assert (F : eqb channelId other = false) by (apply eqb_neq; congruence).
    now rewrite F.
  - destruct (eqb k other); [reflexivity | exact IH].
Qed.

Lemma cache_get_push_none (m : Bot.Message) (cs : list (jsstr * list Bot.Message)) :
  Bot.cache_get channelId cs = None ->
  Bot.cache_get channelId (Bot.cache_push channelId m cs) = None.
Proof.
  induction cs as [|[k msgs] cs IH]; [reflexivity|].
  cbn [Bot.cache_get Bot.cache_push].
  destruct (eqb k channelId) eqn:E; [discriminate|].
  cbn [Bot.cache_get]. rewrite E. exact IH.
Qed.

(** With no failing delivery the loop ends normally. *)
Lemma notify_each_ok (newCommits : list Commit) :
  (forall embed, Bot.send_fails env embed = false) ->
  forall w, exists w',
    Bot.notify_each env owner repo displayName channelId newCommits w = (Ok tt, w').
Proof.
  intros Hs. induction newCommits as [|commit rest IH]; intros w.
  - eexists. reflexivity.
  - destruct (notification_total env owner repo displayName commit) as [embed He].
    rewrite notify_each_step with (embed := embed) by exact He.
    unfold Bot.send. rewrite Hs. apply IH.
Qed.

(** Whatever its outcome, the loop only adds messages of the bot on top of
    the channel it posts to, and leaves every other channel as it was. *)
Lemma notify_each_grows (newCommits : list Commit) :
  forall (w w' : Bot.World) (r : Exc unit),
    Bot.notify_each env owner repo displayName channelId newCommits w = (r, w') ->
    forall other,
      match Bot.cache_get other (Bot.channels w) with
      | Some hist =>
          exists new,
            Bot.cache_get other (Bot.channels w') = Some (new ++ hist) /\
            Forall (fun m => Bot.msg_author_id m = Bot.client_user_id env) new /\
            (other <> channelId -> new = [])
      | None => Bot.cache_get other (Bot.channels w') = None
      end.
Proof.
  induction newCommits as [|commit rest IH]; intros w w' r H other.
  - simpl in H. injection H as _ <-.
    destruct (Bot.cache_get other (Bot.channels w)) as [hist|]; [|reflexivity].
    exists []. repeat split. constructor.
  - destruct (notification_total env owner repo displayName commit) as [embed He].
    rewrite notify_each_step with (embed := embed) in H by exact He.
    unfold Bot.send in H.
    destruct (Bot.send_fails env embed).
    + injection H as _ <-.
      destruct (Bot.cache_get other (Bot.channels w)) as [hist|]; [|reflexivity].
      exists []. repeat split. constructor.
    + specialize (IH _ _ _ H other). cbn [Bot.channels] in IH.
      destruct (Bot.cache_get other (Bot.channels w)) as [hist|] eqn:Hc.
      * destruct (eqb other channelId) eqn:E.
        -- apply eqb_eq in E. subst other.
           rewrite cache_get_push with (hist := hist) in IH by exact Hc.
           destruct IH as [new [Hn [Hb Ho]]].
           exists (new ++ [Bot.mkMessage (Bot.client_user_id env) [embed]]).
           split; [now rewrite <- app_assoc|]. split.
           ++ apply Forall_app. split; [exact Hb|]. now constructor.
           ++ intros Hne. now elim Hne.
        -- apply eqb_neq in E. rewrite cache_get_push_other in IH by exact E.
           now rewrite Hc in IH.
      * destruct (eqb other channelId) eqn:E.
        -- apply eqb_eq in E. subst other.
           now rewrite cache_get_push_none in IH by exact Hc.
        -- apply eqb_neq in E. rewrite cache_get_push_other in IH by exact E.
           now rewrite Hc in IH.
Qed.

(** The messages the loop posts do not depend on the tracker file. *)
Lemma notify_each_any_fs (newCommits : list Commit) :
  forall (fs1 fs2 : Tracker.FS) (chans : list (jsstr * list Bot.Message)),
    fst (Bot.notify_each env owner repo displayName channelId newCommits
           (Bot.mkWorld fs1 chans)) =
    fst (Bot.notify_each env owner repo displayName channelId newCommits
           (Bot.mkWorld fs2 chans)) /\
    Bot.channels (snd (Bot.notify_each env owner repo displayName channelId newCommits
                         (Bot.mkWorld fs1 chans))) =
    Bot.channels (snd (Bot.notify_each env owner repo displayName channelId newCommits
                         (Bot.mkWorld fs2 chans))).
Proof.
  induction newCommits as [|commit rest IH]; intros fs1 fs2 chans.
  - split; reflexivity.
  - destruct (notification_total env owner repo displayName commit) as [embed He].
    rewrite !notify_each_step with (embed := embed) by exact He.
    unfold Bot.send. destruct (Bot.send_fails env embed).
    + split; reflexivity.
    + cbn [Bot.fs Bot.channels]. apply IH.
Qed.

End CycleEffects.

Lemma pollForCommits_try_eq (env : Bot.Env) (w : Bot.World)
      (lastSeen : option jsstr) (fs1 : Tracker.FS) (newCommits : list Commit) :
  Tracker.getLastSeenCommit (Bot.fs w) = (lastSeen, fs1) ->
  Service.checkForNewCommits (Bot.api env) Service.REPO_OWNER Service.REPO_NAME
                             lastSeen = Ok newCommits ->
  Bot.pollForCommits_try env w =
    if 0 <? length newCommits then
      match Bot.cache_get Bot.CHANNEL_ID (Bot.channels w) with
      | Some _ =>
          match Bot.notify_each env Service.REPO_OWNER Service.REPO_NAME
                  (lit "berghain-bot") Bot.CHANNEL_ID newCommits
                  (Bot.mkWorld fs1 (Bot.channels w)) with
          | (Throw e, w2) => (Throw e, w2)
          | (Ok _, w2) =>
              match Bot.last_sha newCommits with
              | Throw e => (Throw e, w2)
              | Ok latest =>
                  let '(r, fs3) :=
                    Tracker.updateLastSeenCommit (Bot.now env) latest
                      (Tracker.MetaObject Tracker.no_metadata) (Bot.fs w2) in
                  (r, Bot.mkWorld fs3 (Bot.channels w2))
              end
          end
      | None => (Ok tt, Bot.mkWorld fs1 (Bot.channels w))
      end
    else (Ok tt, Bot.mkWorld fs1 (Bot.channels w)).
Proof.
  intros HL HC. unfold Bot.pollForCommits_try. rewrite HL.
  cbn [Bot.channels Bot.fs]. rewrite HC. reflexivity.
Qed.

(** X26. A cycle of the single-repository poller whose body throws, because
    a delivery or the write of the cursor failed, leaves the tracker file
    as it was. *)
Theorem pollForCommits_failed_cycle_keeps_cursor
        (env : Bot.Env) (w : Bot.World) (e : jsstr) :
  fst (Bot.pollForCommits_try env w) = Throw e ->
  Tracker.trackerFile (Bot.fs (Bot.pollForCommits env w)) =
    Tracker.trackerFile (Bot.fs w).
Proof.
  unfold Bot.pollForCommits.
  pose proof (getLastSeenCommit_keeps_file (Bot.fs w)) as Hkeep.
  destruct (Tracker.getLastSeenCommit (Bot.fs w)) as [lastSeen fs1] eqn:HL.
  cbn [snd] in Hkeep.
  destruct (checkForNewCommits_never_throws (Bot.api env) Service.REPO_OWNER
              Service.REPO_NAME lastSeen) as [newCommits HC].
  rewrite (pollForCommits_try_eq env w HL HC).
  destruct (0 <? length newCommits); [|discriminate].
  destruct (Bot.cache_get Bot.CHANNEL_ID (Bot.channels w)); [|discriminate].
  destruct (Bot.notify_each env Service.REPO_OWNER Service.REPO_NAME
              (lit "berghain-bot") Bot.CHANNEL_ID newCommits
              (Bot.mkWorld fs1 (Bot.channels w))) as [[[]|e'] w2] eqn:HN;
    apply notify_each_fs in HN; cbn [Bot.fs] in HN.
  2:{ intros _. cbn [snd]. now rewrite HN. }
  destruct (Bot.last_sha newCommits) as [latest|e2].
  2:{ intros _. cbn [snd]. now rewrite HN. }
  pose proof (updateLastSeenCommit_file (Bot.now env) latest
                (Tracker.MetaObject Tracker.no_metadata) (Bot.fs w2)) as Hupd.
  cbv zeta in Hupd.
  destruct (Tracker.updateLastSeenCommit (Bot.now env) latest
              (Tracker.MetaObject Tracker.no_metadata) (Bot.fs w2)) as [r fs3].
  cbn [fst snd Bot.fs] in *. intros ->.
  destruct Hupd as [Hsame | [Hok _]]; [|discriminate].
  now rewrite Hsame, HN.
Qed.

(** X26 at a channel that refuses the first message: the cursor stays [c3]. *)
Lemma pollForCommits_failed_delivery_keeps_c3 :
  Tracker.trackerFile
    (Bot.fs (Bot.pollForCommits Samples.env_c5_send_fails Samples.world_at_c3)) =
  Tracker.trackerFile (Bot.fs Samples.world_at_c3).
Proof.
  exact (@pollForCommits_failed_cycle_keeps_cursor Samples.env_c5_send_fails
           Samples.world_at_c3 (lit "send failed") eq_refl).
Defined.

(** X27. When the request for the commit list fails, or when the channel is
    not cached, the cycle ends normally, posts nothing and leaves the tracker
    file as it was. *)
Theorem pollForCommits_nothing_to_do (env : Bot.Env) (w : Bot.World) :
  (exists e, Service.get_commits (Bot.api env) Service.REPO_OWNER Service.REPO_NAME 20 =
             Throw e) \/
  Bot.cache_get Bot.CHANNEL_ID (Bot.channels w) = None ->
  fst (Bot.pollForCommits_try env w) = Ok tt /\
  Bot.channels (Bot.pollForCommits env w) = Bot.channels w /\
  Tracker.trackerFile (Bot.fs (Bot.pollForCommits env w)) =
    Tracker.trackerFile (Bot.fs w).
Proof.
  intros H. unfold Bot.pollForCommits.
  pose proof (getLastSeenCommit_keeps_file (Bot.fs w)) as Hkeep.
  destruct (Tracker.getLastSeenCommit (Bot.fs w)) as [lastSeen fs1] eqn:HL.
  cbn [snd] in Hkeep.
  destruct (checkForNewCommits_never_throws (Bot.api env) Service.REPO_OWNER
              Service.REPO_NAME lastSeen) as [newCommits HC].
  rewrite (pollForCommits_try_eq env w HL HC).
  destruct H as [[e He] | Hnone].
  - rewrite checkForNewCommits_query_failure with (e := e) in HC by exact He.
    injection HC as <-. cbn. repeat split. exact Hkeep.
  - rewrite Hnone. destruct (0 <? length newCommits); cbn; repeat split; exact Hkeep.
Qed.

(** X27 at a source that cannot be reached. *)
Lemma pollForCommits_source_down :
  fst (Bot.pollForCommits_try Samples.env_down Samples.world_at_c3) = Ok tt /\
  Bot.channels (Bot.pollForCommits Samples.env_down Samples.world_at_c3) =
    Bot.channels Samples.world_at_c3 /\
  Tracker.trackerFile (Bot.fs (Bot.pollForCommits Samples.env_down Samples.world_at_c3)) =
    Tracker.trackerFile (Bot.fs Samples.world_at_c3).
Proof.
  refine (@pollForCommits_nothing_to_do Samples.env_down Samples.world_at_c3 _).
  left. exists (lit "Network Error"). reflexivity.
Defined.

Lemma read_of_writable_store (fs fs1 : Tracker.FS) (c : option jsstr) :
  Tracker.writable fs = true ->
  Tracker.getLastSeenCommit fs = (c, fs1) ->
  Tracker.writable fs1 = true /\ Tracker.getLastSeenCommit fs1 = (c, fs1).
Proof.
  intros Hw H.
  destruct fs as [dir [[|[[[|u s]|] upd meta]]|] wr]; cbn in Hw; subst wr;
    destruct dir; cbn in H; injection H as <- <-; split; reflexivity.
Qed.

Lemma read_after_update
      (now commitSha : jsstr) (meta : Tracker.MetadataArg) (fs : Tracker.FS) :
  Tracker.writable fs = true ->
  commitSha <> [] ->
  exists fs3,
    Tracker.updateLastSeenCommit now commitSha meta fs = (Ok tt, fs3) /\
    Tracker.getLastSeenCommit fs3 = (Some commitSha, fs3).
Proof.
  intros Hw Hne. destruct fs as [dir file wr]. cbn in Hw. subst wr.
  destruct commitSha as [|u s]; [congruence|].
  destruct dir; eexists; split; reflexivity.
Qed.

(** X28. With a writable store, deliveries that succeed and a non-empty id
    on the newest commit, a second cycle of the single-repository poller
    over the same answers of the source changes nothing: no message is
    posted twice and the cursor stays where the first cycle put it. *)
Theorem pollForCommits_steady_state (env : Bot.Env) (w : Bot.World) :
  (forall embed, Bot.send_fails env embed = false) ->
  Tracker.writable (Bot.fs w) = true ->
  (forall g rest,
      Service.get_commits (Bot.api env) Service.REPO_OWNER Service.REPO_NAME 20 =
        Ok (g :: rest) ->
      Service.gh_sha g <> []) ->
  Bot.pollForCommits env (Bot.pollForCommits env w) = Bot.pollForCommits env w.
Proof.
  intros Hs Hw Hsha.
  destruct (Tracker.getLastSeenCommit (Bot.fs w)) as [lastSeen fs1] eqn:HL.
  destruct (read_of_writable_store (Bot.fs w) Hw HL) as [Hw1 HL1].
  destruct (checkForNewCommits_never_throws (Bot.api env) Service.REPO_OWNER
              Service.REPO_NAME lastSeen) as [newCommits HC].
  assert (Idle : Bot.pollForCommits env w = Bot.mkWorld fs1 (Bot.channels w) ->
                 Bot.pollForCommits_try env (Bot.mkWorld fs1 (Bot.channels w)) =
                   (Ok tt, Bot.mkWorld fs1 (Bot.channels w)) ->
                 Bot.pollForCommits env (Bot.pollForCommits env w) =
                   Bot.pollForCommits env w).
  { intros E1 E2. rewrite E1. unfold Bot.pollForCommits at 1. now rewrite E2. }
  destruct (0 <? length newCommits) eqn:Hlen.
  2:{ apply Idle.
      - unfold Bot.pollForCommits. rewrite (pollForCommits_try_eq env w HL HC).
        now rewrite Hlen.
      - rewrite pollForCommits_try_eq with (lastSeen := lastSeen) (fs1 := fs1)
                                            (newCommits := newCommits);
          [now rewrite Hlen | exact HL1 | exact HC]. }
  destruct (Bot.cache_get Bot.CHANNEL_ID (Bot.channels w)) as [hist|] eqn:Hch.
  2:{ apply Idle.
      - unfold Bot.pollForCommits. rewrite (pollForCommits_try_eq env w HL HC).
        now rewrite Hlen, Hch.
      - rewrite pollForCommits_try_eq with (lastSeen := lastSeen) (fs1 := fs1)
                                            (newCommits := newCommits);
          [cbn [Bot.channels]; now rewrite Hlen, Hch | exact HL1 | exact HC]. }
  assert (Hne : newCommits <> []) by (intros ->; discriminate Hlen).
  destruct (checkForNewCommits_nonempty _ _ _ _ HC Hne)
    as [g [rest [pre [Hget [Epre _]]]]].
  destruct (notify_each_ok env Service.REPO_OWNER Service.REPO_NAME (lit "berghain-bot")
              Bot.CHANNEL_ID newCommits Hs (Bot.mkWorld fs1 (Bot.channels w)))
    as [w2 HN].
  pose proof (notify_each_fs _ _ _ _ _ _ _ HN) as Hfs2. cbn [Bot.fs] in Hfs2.
  assert (Hlast : Bot.last_sha newCommits = Ok (Service.gh_sha g)).
  { rewrite Epre. unfold Bot.last_sha. now rewrite last_index_app. }
  assert (Hw2 : Tracker.writable (Bot.fs w2) = true) by now rewrite Hfs2.
  assert (Hg : Service.gh_sha g <> []) by now apply (Hsha g rest).
  destruct (@read_after_update (Bot.now env) (Service.gh_sha g)
              (Tracker.MetaObject Tracker.no_metadata) (Bot.fs w2) Hw2 Hg)
    as [fs3 [Hupd HL3]].
  assert (E1 : Bot.pollForCommits env w = Bot.mkWorld fs3 (Bot.channels w2)).
  { unfold Bot.pollForCommits. rewrite (pollForCommits_try_eq env w HL HC).
    now rewrite Hlen, Hch, HN, Hlast, Hupd. }
  rewrite E1. unfold Bot.pollForCommits at 1.
  rewrite pollForCommits_try_eq with (lastSeen := Some (Service.gh_sha g)) (fs1 := fs3)
                                      (newCommits := []).
  - reflexivity.
  - exact HL3.
  - apply detection_at_newest with (rest := rest); [exact Hget | now apply (Hsha g rest)].
Qed.

(** X28 at the window [c5 .. c1] with the stored cursor [c3]. *)
Lemma pollForCommits_steady_state_c5 :
  Bot.pollForCommits Samples.env_c5 (Bot.pollForCommits Samples.env_c5 Samples.world_at_c3) =
  Bot.pollForCommits Samples.env_c5 Samples.world_at_c3.
Proof.
  refine (@pollForCommits_steady_state Samples.env_c5 Samples.world_at_c3 _ eq_refl _).
  - intros embed. reflexivity.
  - intros g rest H. injection H as <- _. discriminate.
Defined.

Lemma channel_as_it_was (env : Bot.Env) (channelId other : jsstr) (w : Bot.World) :
  match Bot.cache_get other (Bot.channels w) with
  | Some hist =>
      exists new,
        Bot.cache_get other (Bot.channels w) = Some (new ++ hist) /\
        Forall (fun m => Bot.msg_author_id m = Bot.client_user_id env) new /\
        (other <> channelId -> new = [])
  | None => Bot.cache_get other (Bot.channels w) = None
  end.
Proof.
  destruct (Bot.cache_get other (Bot.channels w)) as [hist|]; [|reflexivity].
  exists []. repeat split. constructor.
Qed.

(** X29. Whatever happens in a cycle, of either poller, a cached channel
    keeps all its messages in their order; the only messages added are
    messages of the bot, on top, and only in the channel of the repository.
    A channel that is not cached stays so. *)
Theorem pollers_only_add_bot_messages (env : Bot.Env) (w : Bot.World) (other : jsstr) :
  match Bot.cache_get other (Bot.channels w) with
  | Some hist =>
      exists new,
        Bot.cache_get other (Bot.channels (Bot.pollForCommits env w)) =
          Some (new ++ hist) /\
        Forall (fun m => Bot.msg_author_id m = Bot.client_user_id env) new /\
        (other <> Bot.CHANNEL_ID -> new = [])
  | None => Bot.cache_get other (Bot.channels (Bot.pollForCommits env w)) = None
  end /\
  forall repoConfig,
    match Bot.cache_get other (Bot.channels w) with
    | Some hist =>
        exists new,
          Bot.cache_get other
            (Bot.channels (Bot.pollForCommits_multi repoConfig env w)) =
            Some (new ++ hist) /\
          Forall (fun m => Bot.msg_author_id m = Bot.client_user_id env) new /\
          (other <> Bot.rc_channelId repoConfig -> new = [])
    | None =>
        Bot.cache_get other
          (Bot.channels (Bot.pollForCommits_multi repoConfig env w)) = None
    end.
Proof.
  split.
  - unfold Bot.pollForCommits.
    destruct (Tracker.getLastSeenCommit (Bot.fs w)) as [lastSeen fs1] eqn:HL.
    destruct (checkForNewCommits_never_throws (Bot.api env) Service.REPO_OWNER
                Service.REPO_NAME lastSeen) as [newCommits HC].
    rewrite (pollForCommits_try_eq env w HL HC).
    pose proof (channel_as_it_was env Bot.CHANNEL_ID other w) as Same.
    destruct (0 <? length newCommits); [|exact Same].
    destruct (Bot.cache_get Bot.CHANNEL_ID (Bot.channels w)); [|exact Same].
    destruct (Bot.notify_each env Service.REPO_OWNER Service.REPO_NAME
                (lit "berghain-bot") Bot.CHANNEL_ID newCommits
                (Bot.mkWorld fs1 (Bot.channels w))) as [r w2] eqn:HN.
    pose proof (notify_each_grows _ _ _ _ _ _ _ HN other) as G.
    cbn [Bot.channels] in G.
    destruct r as [[]|e]; [|exact G].
    destruct (Bot.last_sha newCommits) as [latest|e2]; [|exact G].
    destruct (Tracker.updateLastSeenCommit (Bot.now env) latest
                (Tracker.MetaObject Tracker.no_metadata) (Bot.fs w2)) as [r fs3].
    exact G.
  - intros rc. unfold Bot.pollForCommits_multi, Bot.pollForCommits_multi_try.
    pose proof (channel_as_it_was env (Bot.rc_channelId rc) other w) as Same.
    destruct (Service.checkForNewCommits (Bot.api env) (Bot.rc_owner rc)
                (Bot.rc_repo rc)
                (Bot.getLastCommitFromChannel env (Bot.rc_channelId rc) w))
      as [newCommits|e]; [|exact Same].
    destruct (0 <? length newCommits); [|exact Same].
    destruct (Bot.cache_get (Bot.rc_channelId rc) (Bot.channels w)); [|exact Same].
    destruct (Bot.notify_each env (Bot.rc_owner rc) (Bot.rc_repo rc)
                (Bot.rc_displayName rc) (Bot.rc_channelId rc) newCommits w)
      as [r w2] eqn:HN.
    pose proof (notify_each_grows _ _ _ _ _ _ _ HN other) as G.
    destruct r as [[]|e]; [|exact G].
    destruct (Bot.last_sha newCommits) as [latest|e2]; [|exact G].
    destruct (Tracker.updateLastSeenCommit (Bot.now env) (Bot.rc_repo rc)
                (Tracker.MetaString latest) (Bot.fs w2)) as [r fs3].
    exact G.
Qed.

(** X30. The multi-repository poller never reads the tracker file: what it
    posts is the same whatever the file holds.  When it does change the
    file, the [lastCommitSha] it stores is the name of the repository. *)
Theorem multi_poller_ignores_tracker
        (repoConfig : Bot.RepoConfig) (env : Bot.Env) :
  (forall fs1 fs2 chans,
      Bot.channels (Bot.pollForCommits_multi repoConfig env (Bot.mkWorld fs1 chans)) =
      Bot.channels (Bot.pollForCommits_multi repoConfig env (Bot.mkWorld fs2 chans))) /\
  (forall w,
      Tracker.trackerFile (Bot.fs (Bot.pollForCommits_multi repoConfig env w)) =
        Tracker.trackerFile (Bot.fs w) \/
      exists doc,
        Tracker.trackerFile (Bot.fs (Bot.pollForCommits_multi repoConfig env w)) =
          Some (Tracker.Json doc) /\
        Tracker.lastCommitSha doc = Some (Bot.rc_repo repoConfig)).
Proof.
  split.
  - intros fs1 fs2 chans.
    unfold Bot.pollForCommits_multi, Bot.pollForCommits_multi_try.
    unfold Bot.getLastCommitFromChannel. cbn [Bot.channels].
    destruct (Service.checkForNewCommits _ _ _ _) as [newCommits|e]; [|reflexivity].
    destruct (0 <? length newCommits); [|reflexivity].
    destruct (Bot.cache_get (Bot.rc_channelId repoConfig) chans); [|reflexivity].
    destruct (notify_each_any_fs env (Bot.rc_owner repoConfig) (Bot.rc_repo repoConfig)
                (Bot.rc_displayName repoConfig) (Bot.rc_channelId repoConfig)
                newCommits fs1 fs2 chans) as [Hr Hc].
    destruct (Bot.notify_each _ _ _ _ _ newCommits (Bot.mkWorld fs1 chans)) as [r1 w1].
    destruct (Bot.notify_each _ _ _ _ _ newCommits (Bot.mkWorld fs2 chans)) as [r2 w2].
    cbn [fst snd] in Hr, Hc. subst r2.
    destruct r1 as [[]|e]; [|exact Hc].
    destruct (Bot.last_sha newCommits) as [latest|e2]; [|exact Hc].
    destruct (Tracker.updateLastSeenCommit _ _ _ (Bot.fs w1)) as [ra fa].
    destruct (Tracker.updateLastSeenCommit _ _ _ (Bot.fs w2)) as [rb fb].
    exact Hc.
  - intros w. unfold Bot.pollForCommits_multi, Bot.pollForCommits_multi_try.
    destruct (Service.checkForNewCommits _ _ _ _) as [newCommits|e]; [|now left].
    destruct (0 <? length newCommits); [|now left].
    destruct (Bot.cache_get (Bot.rc_channelId repoConfig) (Bot.channels w)); [|now left].
    destruct (Bot.notify_each _ _ _ _ _ newCommits w) as [r w2] eqn:HN.
    apply notify_each_fs in HN.
    destruct r as [[]|e]; [|left; cbn [snd]; now rewrite HN].
    destruct (Bot.last_sha newCommits) as [latest|e2]; [|left; cbn [snd]; now rewrite HN].
    pose proof (updateLastSeenCommit_file (Bot.now env) (Bot.rc_repo repoConfig)
                  (Tracker.MetaString latest) (Bot.fs w2)) as Hupd.
    cbv zeta in Hupd.
    destruct (Tracker.updateLastSeenCommit (Bot.now env) (Bot.rc_repo repoConfig)
                (Tracker.MetaString latest) (Bot.fs w2)) as [r fs3].
    cbn [fst snd Bot.fs] in *.
    destruct Hupd as [Hsame | [_ Hnew]].
    + left. now rewrite Hsame, HN.
    + right. eexists. split; [exact Hnew | reflexivity].
Qed.
